(** * Exercise Tracker: the route handlers of [index.js] over a model of the
      Mongoose collections they call.

    The program is an Express application with two Mongoose models, [User]
    and [Exercise], and six routes.  Every route body is an [async] function
    wrapped in [try]/[catch]; it awaits a few model calls and answers with
    [res.json], after [res.status] on the error paths.

    The embedding follows that shape:
    - JavaScript values the handlers compute with ([parseInt], truthiness,
      [Date]) are in [Module JS];
    - identifiers are in [Module ObjectId];
    - a document store with the two collections, the schema checks declared
      in [userSchema] and [exerciseSchema], and the model calls the handlers
      use are in [Module Mongoose];
    - the handlers are in [Section Routes], written in a state-and-exception
      monad so that they read like the source.

    Strings are sequences of code units below 256; numbers are integers
    (the source's doubles agree with them up to 2^53 in magnitude). *)

From Stdlib Require Import ZArith NArith List String Ascii Bool Lia.
From Stdlib Require Import Sorted Permutation.
Import ListNotations.

Set Warnings "-register-all".

Local Open Scope string_scope.
Local Open Scope Z_scope.

(* ------------------------------------------------------------------ *)
(** ** JavaScript values *)

Module JS.

(** A JavaScript number as the handlers meet it: an integer or NaN. *)
Inductive number : Type :=
| Num (z : Z)
| NaN.

(** A [Date] object: a time value in milliseconds since the epoch, or the
    invalid date ([new Date("garbage")]). *)
Inductive date : Type :=
| Time (ms : Z)
| InvalidDate.

(** A request field: [undefined] when the client left it out. *)
Definition field := option string.

(** Truthiness of a request field as tested by [x ? a : b] and [x || y]:
    [undefined] and the empty string are falsy, any other string is
    truthy. *)
Definition truthy (v : field) : bool :=
  match v with
  | None => false
  | Some s => negb (s =? "")%string
  end.

(** [ToString] on a field, as [parseInt] applies it to its argument. *)
Definition to_string (v : field) : string :=
  match v with
  | None => "undefined"
  | Some s => s
  end.

(** White space and line terminators among the code units below 256:
    TAB, LF, VT, FF, CR, SP and NBSP. *)
Definition is_white (c : ascii) : bool :=
  let n := Z.of_nat (nat_of_ascii c) in
  ((9 <=? n) && (n <=? 13)) || (n =? 32) || (n =? 160).

Fixpoint trim_start (s : string) : string :=
  match s with
  | String c r => if is_white c then trim_start r else s
  | EmptyString => s
  end.

(** The value of a digit in radix up to 36, letters in either case. *)
Definition digit_value (c : ascii) : option Z :=
  let n := Z.of_nat (nat_of_ascii c) in
  if (48 <=? n) && (n <=? 57) then Some (n - 48)
  else if (97 <=? n) && (n <=? 122) then Some (n - 87)
  else if (65 <=? n) && (n <=? 90) then Some (n - 55)
  else None.

(** The value of the longest prefix of [s] made of digits of [radix];
    [acc] is [None] until a digit has been read. *)
Fixpoint digits (radix : Z) (s : string) (acc : option Z) : option Z :=
  match s with
  | String c r =>
      match digit_value c with
      | Some d =>
          if d <? radix
          then digits radix r (Some (radix * match acc with
                                             | Some a => a
                                             | None => 0
                                             end + d))
          else acc
      | None => acc
      end
  | EmptyString => acc
  end.

(** The sign prefix of [parseInt]. *)
Definition strip_sign (s : string) : Z * string :=
  match s with
  | String "-"%char r => (-1, r)
  | String "+"%char r => (1, r)
  | _ => (1, s)
  end.

(** With no radix argument, a [0x] or [0X] prefix selects radix 16 and
    anything else radix 10. *)
Definition strip_prefix (s : string) : Z * string :=
  match s with
  | String "0"%char (String "x"%char r) => (16, r)
  | String "0"%char (String "X"%char r) => (16, r)
  | _ => (10, s)
  end.

(** [parseInt(v)] with one argument.  The result is the exact integer
    the digits write; the source's result is that integer rounded to a
    double, the same number up to 2^53 in magnitude. *)
Definition parseInt (v : field) : number :=
  let (sign, s1) := strip_sign (trim_start (to_string v)) in
  let (radix, s2) := strip_prefix s1 in
  match digits radix s2 None with
  | Some n => Num (sign * n)
  | None => NaN
  end.

End JS.

(* ------------------------------------------------------------------ *)
(** ** Identifiers *)

Module ObjectId.

(** A document identifier: twelve bytes, read as one number. *)
Definition t := N.

Definition hex_value (c : ascii) : option N :=
  let n := N_of_ascii c in
  (if (48 <=? n) && (n <=? 57) then Some (n - 48)
   else if (97 <=? n) && (n <=? 102) then Some (n - 87)
   else if (65 <=? n) && (n <=? 70) then Some (n - 55)
   else None)%N.

Fixpoint of_hex (s : string) (acc : N) : option N :=
  match s with
  | String c r =>
      match hex_value c with
      | Some d => of_hex r (16 * acc + d)%N
      | None => None
      end
  | EmptyString => Some acc
  end.

Fixpoint of_bytes (s : string) (acc : N) : option N :=
  match s with
  | String c r =>
      if (N_of_ascii c <? 128)%N
      then of_bytes r (256 * acc + N_of_ascii c)%N
      else None
  | EmptyString => Some acc
  end.

(** Casting a string to an identifier, as [findById] does with the path
    parameter: a string of twelve one-byte characters is taken as the
    twelve bytes, a string of 24 hexadecimal digits is decoded, and any
    other string fails to cast. *)
Definition cast (s : string) : option t :=
  if Nat.eqb (String.length s) 12 then of_bytes s 0%N
  else if Nat.eqb (String.length s) 24 then of_hex s 0%N
  else None.

Definition hex_digit (d : N) : ascii :=
  if (d <? 10)%N then ascii_of_N (48 + d) else ascii_of_N (87 + d).

(** The [k] low hexadecimal digits of [n], most significant first. *)
Fixpoint hex_digits (k : nat) (n : N) (acc : string) : string :=
  match k with
  | O => acc
  | S k' => hex_digits k' (n / 16)%N (String (hex_digit (n mod 16)%N) acc)
  end.

(** How an identifier appears in a JSON body: 24 lower-case hexadecimal
    digits. *)
Definition toHexString (id : t) : string := hex_digits 24 id "".

End ObjectId.

(* ------------------------------------------------------------------ *)
(** ** JSON bodies *)

Inductive json : Type :=
| JNull
| JBool (b : bool)
| JNum (z : Z)
| JStr (s : string)
| JArr (items : list json)
| JObj (members : list (string * json)).

Fixpoint assoc (k : string) (l : list (string * json)) : option json :=
  match l with
  | [] => None
  | (k', v) :: r => if (k' =? k)%string then Some v else assoc k r
  end.

(** The member [k] of a JSON object. *)
Definition member (k : string) (j : json) : option json :=
  match j with
  | JObj l => assoc k l
  | _ => None
  end.

(** What a handler sends: the status set by [res.status] (200 when the
    handler does not call it) and the value given to [res.json]. *)
Record Response : Type := mkResponse {
  status : Z;
  body : json
}.

Definition res_json (j : json) : Response := mkResponse 200 j.
Definition res_status_json (code : Z) (j : json) : Response := mkResponse code j.

(* ------------------------------------------------------------------ *)
(** ** The document store behind the two models

    [index.js] declares two schemas and calls a handful of model methods;
    what those methods do is the library's.  This module gives each call
    the handlers make, with the behaviour the library documents for it:

    - [unique: true] on [username] (line 29) builds a unique index, and an
      insert that would repeat an indexed value is rejected;
    - [required: true] on a [String] path rejects an absent value and the
      empty string;
    - a path of [type: Number] does not take NaN, and a path of
      [type: Date] does not take the invalid date: the cast fails and
      [save] rejects with a validation error;
    - [findById] casts its argument to an identifier before it queries,
      and rejects when the cast fails;
    - a query sorts before it limits, whatever the order of [limit] and
      [sort] in the chain, and a limit of 0 is no limit;
    - a call made with no connection is rejected once buffering times out.

    Collections are lists in insertion order. *)

Module Mongoose.

(** Why an awaited model call is rejected. *)
Inductive error : Type :=
| CastError          (* a value does not cast to the type of its path *)
| ValidationError    (* [save] on a document that fails its schema *)
| DuplicateKey       (* an insert that a unique index refuses *)
| FailedToParse      (* a command the server does not accept *)
| BufferingTimedOut. (* no connection to the server *)

(** A stored [User]; [userSchema] declares the one path [username]. *)
Record UserDoc : Type := mkUser {
  user_id : ObjectId.t;
  username : string
}.

(** A stored [Exercise], with the four paths of [exerciseSchema]. *)
Record ExerciseDoc : Type := mkExercise {
  exercise_id : ObjectId.t;
  userId : string;
  description : string;
  duration : Z;
  date : Z
}.

(** The state the handlers run against: whether the connection opened by
    [mongoose.connect] is up, the two collections in insertion order, and
    the next identifier [new] hands out. *)
Record db : Type := mkDb {
  connected : bool;
  users : list UserDoc;
  exercises : list ExerciseDoc;
  oid_supply : N
}.

Definition set_users (l : list UserDoc) (s : db) : db :=
  mkDb (connected s) l (exercises s) (oid_supply s).

Definition set_exercises (l : list ExerciseDoc) (s : db) : db :=
  mkDb (connected s) (users s) l (oid_supply s).

(** *** Awaited computations

    An [async] body either completes with a value or throws; what it did
    to the store before throwing stays done. *)

Inductive outcome (A : Type) : Type :=
| Fulfilled (a : A)
| Rejected (e : error).
Arguments Fulfilled {A} a.
Arguments Rejected {A} e.

Definition Async (A : Type) : Type := db -> outcome A * db.

Definition resolve {A : Type} (a : A) : Async A :=
  fun s => (Fulfilled a, s).

Definition reject {A : Type} (e : error) : Async A :=
  fun s => (Rejected e, s).

Definition await {A B : Type} (m : Async A) (k : A -> Async B) : Async B :=
  fun s =>
    match m s with
    | (Fulfilled a, s') => k a s'
    | (Rejected e, s') => (Rejected e, s')
    end.

(** [try { ... } catch (err) { ... }] around a handler body whose catch
    block only logs and answers. *)
Definition try_catch (m : Async Response) (handler : error -> Response)
  : db -> Response * db :=
  fun s =>
    match m s with
    | (Fulfilled r, s') => (r, s')
    | (Rejected e, s') => (handler e, s')
    end.

(** A call that needs the server: rejected when the connection is down. *)
Definition on_server {A : Type} (op : db -> outcome A * db) : Async A :=
  fun s => if connected s then op s else (Rejected BufferingTimedOut, s).

(** The identifier a new document gets when it is constructed. *)
Definition new_ObjectId : Async ObjectId.t :=
  fun s =>
    (Fulfilled (oid_supply s),
     mkDb (connected s) (users s) (exercises s) (oid_supply s + 1)%N).

(** *** The [User] model *)

(** [User.findOne({ username })]: the first user with that exact name. *)
Definition User_findOne (name : string) : Async (option UserDoc) :=
  on_server (fun s =>
    (Fulfilled (find (fun u => (username u =? name)%string) (users s)), s)).

(** [User.findById(id)]: the string is cast to an identifier first. *)
Definition User_findById (id : string) : Async (option UserDoc) :=
  match ObjectId.cast id with
  | None => reject CastError
  | Some oid =>
      on_server (fun s =>
        (Fulfilled (find (fun u => (user_id u =? oid)%N) (users s)), s))
  end.

(** [User.find({}, '_id username')]. *)
Definition User_find_all : Async (list UserDoc) :=
  on_server (fun s => (Fulfilled (users s), s)).

(** [new User({ username })]. *)
Definition User_new (name : string) : Async UserDoc :=
  await new_ObjectId (fun oid => resolve (mkUser oid name)).

(** [required: true] on a string path: the empty string does not pass. *)
Definition required_string (v : string) : bool := negb (v =? "")%string.

(** The unique index that [unique: true] puts on [username]. *)
Definition username_taken (name : string) (l : list UserDoc) : bool :=
  existsb (fun u => (username u =? name)%string) l.

(** [user.save()]: the document is validated against [userSchema], then
    inserted; the unique index on [username] refuses a second document
    with the same name. *)
Definition User_save (u : UserDoc) : Async UserDoc :=
  if required_string (username u)
  then on_server (fun s =>
         if username_taken (username u) (users s)
         then (Rejected DuplicateKey, s)
         else (Fulfilled u, set_users (users s ++ [u]) s))
  else reject ValidationError.

(** [User.deleteMany({})]: the number of documents removed. *)
Definition User_deleteMany : Async Z :=
  on_server (fun s =>
    (Fulfilled (Z.of_nat (List.length (users s))), set_users [] s)).

(** *** The [Exercise] model *)

(** The document [new Exercise({...})] builds.  Each path holds the value
    cast to the path's type; a value that does not cast (NaN for a
    [Number], the invalid date for a [Date]) leaves the path empty and is
    reported by [save]. *)
Record ExerciseDraft : Type := mkDraft {
  draft_id : ObjectId.t;
  draft_userId : string;
  draft_description : JS.field;
  draft_duration : option Z;
  draft_date : option Z
}.

Definition cast_Number (n : JS.number) : option Z :=
  match n with
  | JS.Num z => Some z
  | JS.NaN => None
  end.

Definition cast_Date (d : JS.date) : option Z :=
  match d with
  | JS.Time ms => Some ms
  | JS.InvalidDate => None
  end.

Definition Exercise_new (uid : string) (desc : JS.field)
    (dur : JS.number) (d : JS.date) : Async ExerciseDraft :=
  await new_ObjectId (fun oid =>
    resolve (mkDraft oid uid desc (cast_Number dur) (cast_Date d))).

(** Validation against [exerciseSchema]: [userId], [description] and
    [duration] are required, and no path may have failed to cast. *)
Definition Exercise_validate (d : ExerciseDraft) : option ExerciseDoc :=
  match draft_description d, draft_duration d, draft_date d with
  | Some desc, Some dur, Some dt =>
      if required_string (draft_userId d) && required_string desc
      then Some (mkExercise (draft_id d) (draft_userId d) desc dur dt)
      else None
  | _, _, _ => None
  end.

(** [exercise.save()]. *)
Definition Exercise_save (d : ExerciseDraft) : Async ExerciseDoc :=
  match Exercise_validate d with
  | Some e =>
      on_server (fun s =>
        (Fulfilled e, set_exercises (exercises s ++ [e]) s))
  | None => reject ValidationError
  end.

(** The filter object the log handler builds: [userId] always, and a
    [date] condition with [$gte] and [$lte] when they were set. *)
Record Filter : Type := mkFilter {
  filter_userId : string;
  filter_gte : option JS.date;
  filter_lte : option JS.date
}.

(** Casting one bound of the [date] condition. *)
Definition cast_bound (b : option JS.date) : option (option Z) :=
  match b with
  | None => Some None
  | Some d =>
      match cast_Date d with
      | Some ms => Some (Some ms)
      | None => None
      end
  end.

Definition matches (uid : string) (lo hi : option Z) (e : ExerciseDoc)
  : bool :=
  (userId e =? uid)%string
  && match lo with Some l => l <=? date e | None => true end
  && match hi with Some h => date e <=? h | None => true end.

(** [sort({ date: 1 })]: ascending by date.  Documents with equal dates
    are left in insertion order here; the server promises no order among
    them, and no statement below depends on one. *)
Fixpoint insert_by_date (e : ExerciseDoc) (l : list ExerciseDoc)
  : list ExerciseDoc :=
  match l with
  | [] => [e]
  | x :: r => if date e <=? date x then e :: l else x :: insert_by_date e r
  end.

Definition sort_by_date (l : list ExerciseDoc) : list ExerciseDoc :=
  fold_right insert_by_date [] l.

(** [limit(n)] on a query: [undefined] sets no limit; the server takes a
    limit of 0 as no limit and a negative limit as its absolute value,
    and refuses NaN. *)
Definition apply_limit (limit : option JS.number) (l : list ExerciseDoc)
  : option (list ExerciseDoc) :=
  match limit with
  | None => Some l
  | Some JS.NaN => None
  | Some (JS.Num 0) => Some l
  | Some (JS.Num n) => Some (firstn (Z.abs_nat n) l)
  end.

(** [Exercise.find(filter).limit(limit).sort({ date: 1 })], awaited: the
    filter is cast to the schema, the matching documents are sorted, and
    the limit applies to the sorted sequence. *)
Definition Exercise_find (f : Filter) (limit : option JS.number)
  : Async (list ExerciseDoc) :=
  match cast_bound (filter_gte f), cast_bound (filter_lte f) with
  | Some lo, Some hi =>
      on_server (fun s =>
        match apply_limit limit
                (sort_by_date
                   (filter (matches (filter_userId f) lo hi) (exercises s)))
        with
        | Some l => (Fulfilled l, s)
        | None => (Rejected FailedToParse, s)
        end)
  | _, _ => reject CastError
  end.

(** [Exercise.deleteMany({})]. *)
Definition Exercise_deleteMany : Async Z :=
  on_server (fun s =>
    (Fulfilled (Z.of_nat (List.length (exercises s))), set_exercises [] s)).

End Mongoose.

Notation "x <- m ;; k" := (Mongoose.await m (fun x => k))
  (at level 61, m at next level, right associativity).

(* ------------------------------------------------------------------ *)
(** ** The routes *)

Section Routes.

Import Mongoose.

(** [new Date(text)]: how the engine reads a date string is left to the
    implementation for most formats, so it is taken as given. *)
Variable Date_parse : string -> JS.date.

(** [toDateString()] of a valid date; it depends on the time zone of the
    process. *)
Variable toDateString : Z -> string.

Definition oid_json (id : ObjectId.t) : json :=
  JStr (ObjectId.toHexString id).

Definition error_json (msg : string) : json := JObj [("error", JStr msg)].

(** A user document as [res.json] serialises it. *)
Definition user_json (u : UserDoc) : json :=
  JObj [("_id", oid_json (user_id u));
        ("username", JStr (username u));
        ("__v", JNum 0)].

(** [POST /api/users], the form field [username] being the text the
    client sent. *)
Definition post_api_users (username : string) : db -> Response * db :=
  try_catch
    (existingUser <- User_findOne username ;;
     match existingUser with
     | Some u => resolve (res_json (user_json u))
     | None =>
         newUser <- User_new username ;;
         savedUser <- User_save newUser ;;
         resolve (res_json (JObj [("username", JStr (Mongoose.username savedUser));
                                  ("_id", oid_json (user_id savedUser))]))
     end)
    (fun _ => res_status_json 500 (error_json "Server error creating user")).

(** [GET /api/users] *)
Definition get_api_users : db -> Response * db :=
  try_catch
    (users <- User_find_all ;;
     resolve (res_json (JArr (map (fun u =>
                JObj [("_id", oid_json (user_id u));
                      ("username", JStr (Mongoose.username u))]) users))))
    (fun _ => res_status_json 500 (error_json "Server error retrieving users")).

(** [date ? new Date(date) : new Date()], with the clock reading [now]. *)
Definition exercise_date (date : JS.field) (now : Z) : JS.date :=
  if JS.truthy date then Date_parse (JS.to_string date) else JS.Time now.

(** [POST /api/users/:_id/exercises] *)
Definition post_api_users_exercises (userId : string)
    (description duration date : JS.field) (now : Z)
  : db -> Response * db :=
  try_catch
    (user <- User_findById userId ;;
     match user with
     | None => resolve (res_status_json 404 (error_json "User not found"))
     | Some user =>
         exercise <- Exercise_new userId description
                       (JS.parseInt duration) (exercise_date date now) ;;
         saved <- Exercise_save exercise ;;
         resolve (res_json
           (JObj [("_id", oid_json (user_id user));
                  ("username", JStr (Mongoose.username user));
                  ("description", JStr (Mongoose.description saved));
                  ("duration", JNum (Mongoose.duration saved));
                  ("date", JStr (toDateString (Mongoose.date saved)))]))
     end)
    (fun _ => res_status_json 500 (error_json "Server error adding exercise")).

(** The filter of the log query: [{ userId: _id }], with a [date]
    condition when [from] or [to] is truthy. *)
Definition build_filter (_id : string) (from to : JS.field) : Filter :=
  if JS.truthy from || JS.truthy to
  then mkFilter _id
         (if JS.truthy from then Some (Date_parse (JS.to_string from)) else None)
         (if JS.truthy to then Some (Date_parse (JS.to_string to)) else None)
  else mkFilter _id None None.

(** [limit ? parseInt(limit) : undefined] *)
Definition limit_arg (limit : JS.field) : option JS.number :=
  if JS.truthy limit then Some (JS.parseInt limit) else None.

(** One element of [log]. *)
Definition log_entry (e : ExerciseDoc) : json :=
  JObj [("_id", oid_json (exercise_id e));
        ("description", JStr (Mongoose.description e));
        ("duration", JNum (Mongoose.duration e));
        ("date", JStr (toDateString (Mongoose.date e)))].

(** [GET /api/users/:_id/logs] *)
Definition get_api_users_logs (_id : string) (from to limit : JS.field)
  : db -> Response * db :=
  try_catch
    (user <- User_findById _id ;;
     match user with
     | None => resolve (res_status_json 404 (error_json "User not found"))
     | Some user =>
         exercises <- Exercise_find (build_filter _id from to)
                        (limit_arg limit) ;;
         let log := map log_entry exercises in
         resolve (res_json
           (JObj [("_id", oid_json (user_id user));
                  ("username", JStr (Mongoose.username user));
                  ("count", JNum (Z.of_nat (List.length log)));
                  ("log", JArr log)]))
     end)
    (fun _ => res_status_json 500
                (error_json "Server error retrieving exercise log")).

(** The summary [deleteMany] resolves to. *)
Definition delete_result (n : Z) : json :=
  JObj [("acknowledged", JBool true); ("deletedCount", JNum n)].

(** [GET /api/users/delete] *)
Definition get_api_users_delete : db -> Response * db :=
  try_catch
    (result <- User_deleteMany ;;
     resolve (res_json (JObj [("message", JStr "All users have been deleted!");
                              ("result", delete_result result)])))
    (fun _ => res_json (JObj [("message", JStr "Deleting all users failed!")])).

(** [GET /api/exercises/delete] *)
Definition get_api_exercises_delete : db -> Response * db :=
  try_catch
    (result <- Exercise_deleteMany ;;
     resolve (res_json (JObj [("message", JStr "All exercises have been deleted!");
                              ("result", delete_result result)])))
    (fun _ => res_json (JObj [("message", JStr "Deleting all exercises failed!")])).

(** *** Vocabulary of the statements *)

(** Ascending order of dates. *)
Definition date_le (a b : ExerciseDoc) : Prop := date a <= date b.

(** The path parameter refers to a stored user. *)
Definition references (s : db) (userId : string) : Prop :=
  exists u : UserDoc,
    In u (users s) /\ ObjectId.cast userId = Some (user_id u).

(** The body of a 200 answer of the add-exercise route. *)
Definition exercise_body (u : UserDoc) (e : ExerciseDoc) : json :=
  JObj [("_id", oid_json (user_id u));
        ("username", JStr (username u));
        ("description", JStr (description e));
        ("duration", JNum (duration e));
        ("date", JStr (toDateString (date e)))].

(** The answer for a user that is not found. *)
Definition not_found : Response :=
  res_status_json 404 (error_json "User not found").

(** What a query parameter sets as one end of the date range: nothing
    when it is absent or empty, else the date its text is read as. *)
Definition bound_of (v : JS.field) : option JS.date :=
  if JS.truthy v then Some (Date_parse (JS.to_string v)) else None.

(** A date within the range, each end counted in when it is set. *)
Definition in_range (lo hi : option Z) (d : Z) : Prop :=
  (forall t, lo = Some t -> t <= d) /\ (forall t, hi = Some t -> d <= t).

(** The body of a 200 answer of the log route for user [u] and the
    selected documents [sel]. *)
Definition logs_body (u : UserDoc) (sel : list ExerciseDoc) : json :=
  JObj [("_id", oid_json (user_id u));
        ("username", JStr (username u));
        ("count", JNum (Z.of_nat (List.length (map log_entry sel))));
        ("log", JArr (map log_entry sel))].

End Routes.

(* ------------------------------------------------------------------ *)
(** ** An engine in the UTC time zone

    One instance of the two functions the routes take as given, used to run
    the handlers on concrete requests: it reads the date-only form
    [YYYY-MM-DD] of the date-time string format (midnight UTC of that day)
    and takes every other string as an invalid date, and it prints dates as
    a process in the UTC time zone does.  An engine reads more forms than
    this one does (date-times, month names, days past the end of a month);
    the requests below use date texts on which they agree. *)

Module UTC.

Definition ms_per_day : Z := 86400000.

(** Days from 1970-01-01 to the given day of the proleptic Gregorian
    calendar. *)
Definition days_from_civil (y m d : Z) : Z :=
  let y' := if m <=? 2 then y - 1 else y in
  let era := y' / 400 in
  let yoe := y' - era * 400 in
  let doy := (153 * (if 2 <? m then m - 3 else m + 9) + 2) / 5 + d - 1 in
  let doe := yoe * 365 + yoe / 4 - yoe / 100 + doy in
  era * 146097 + doe - 719468.

(** Year, month and day of a day number. *)
Definition civil_from_days (days : Z) : Z * Z * Z :=
  let z := days + 719468 in
  let era := z / 146097 in
  let doe := z - era * 146097 in
  let yoe := (doe - doe / 1460 + doe / 36524 - doe / 146096) / 365 in
  let doy := doe - (365 * yoe + yoe / 4 - yoe / 100) in
  let mp := (5 * doy + 2) / 153 in
  let d := doy - (153 * mp + 2) / 5 + 1 in
  let m := if mp <? 10 then mp + 3 else mp - 9 in
  (yoe + era * 400 + (if m <=? 2 then 1 else 0), m, d).

Definition is_leap (y : Z) : bool :=
  ((y mod 4 =? 0) && negb (y mod 100 =? 0)) || (y mod 400 =? 0).

Definition days_in_month (y m : Z) : Z :=
  if m =? 2 then (if is_leap y then 29 else 28)
  else if (m =? 4) || (m =? 6) || (m =? 9) || (m =? 11) then 30
  else 31.

Definition digit (c : ascii) : option Z :=
  let n := Z.of_nat (nat_of_ascii c) in
  if (48 <=? n) && (n <=? 57) then Some (n - 48) else None.

(** The number written by a string of decimal digits. *)
Fixpoint number (s : string) (acc : Z) : option Z :=
  match s with
  | String c r =>
      match digit c with
      | Some d => number r (10 * acc + d)
      | None => None
      end
  | EmptyString => Some acc
  end.

Definition Date_parse (s : string) : JS.date :=
  if Nat.eqb (String.length s) 10
     && (String.substring 4 1 s =? "-")%string
     && (String.substring 7 1 s =? "-")%string
  then
    match number (String.substring 0 4 s) 0,
          number (String.substring 5 2 s) 0,
          number (String.substring 8 2 s) 0 with
    | Some y, Some m, Some d =>
        if (1 <=? m) && (m <=? 12) && (1 <=? d) && (d <=? days_in_month y m)
        then JS.Time (days_from_civil y m d * ms_per_day)
        else JS.InvalidDate
    | _, _, _ => JS.InvalidDate
    end
  else JS.InvalidDate.

(** Decimal digits of a non-negative number, at least [width] of them. *)
Fixpoint decimal (width : nat) (fuel : nat) (n : Z) (acc : string) : string :=
  match fuel with
  | O => acc
  | S fuel' =>
      let acc' := String (ascii_of_nat (48 + Z.to_nat (n mod 10))) acc in
      if (n / 10 =? 0) && (width <=? 1)%nat then acc'
      else decimal (pred width) fuel' (n / 10) acc'
  end.

Definition padded (width : nat) (n : Z) : string :=
  decimal width (width + Z.to_nat (Z.log2 n) + 1) n "".

Definition day_name (i : Z) : string :=
  nth (Z.to_nat i) ["Sun"; "Mon"; "Tue"; "Wed"; "Thu"; "Fri"; "Sat"] "".

Definition month_name (m : Z) : string :=
  nth (Z.to_nat (m - 1))
    ["Jan"; "Feb"; "Mar"; "Apr"; "May"; "Jun";
     "Jul"; "Aug"; "Sep"; "Oct"; "Nov"; "Dec"] "".

Definition toDateString (ms : Z) : string :=
  let days := ms / ms_per_day in
  let '(y, m, d) := civil_from_days days in
  day_name ((days + 4) mod 7) ++ " " ++ month_name m ++ " "
    ++ padded 2 d ++ " "
    ++ (if y <? 0 then "-" else "") ++ padded 4 (Z.abs y).

End UTC.

(* ------------------------------------------------------------------ *)
(** ** Concrete stores and requests *)

Module Sample.

Import Mongoose.

Definition alice_id : string := "507f1f77bcf86cd799439011".

Definition alice : UserDoc := mkUser 24912482966938930280208240657%N "alice".

Definition run_mon : ExerciseDoc :=
  mkExercise 1%N alice_id "run" 30 1704067200000.   (* 2024-01-01 *)

Definition swim_wed : ExerciseDoc :=
  mkExercise 2%N alice_id "swim" 45 1704240000000.  (* 2024-01-03 *)

Definition walk_tue : ExerciseDoc :=
  mkExercise 3%N alice_id "walk" 20 1704153600000.  (* 2024-01-02 *)

(** A fresh store. *)
Definition empty : db := mkDb true [] [] 1%N.

(** Alice registered, nothing logged. *)
Definition registered : db := mkDb true [alice] [] 1%N.

(** Alice with three entries, logged out of date order. *)
Definition logged : db := mkDb true [alice] [run_mon; swim_wed; walk_tue] 4%N.

(** The same store with the connection down. *)
Definition offline : db := mkDb false [alice] [run_mon; swim_wed; walk_tue] 4%N.

End Sample.

Module Run.

Import Mongoose.

(** The two routes that read or print dates, on the UTC engine. *)
Definition add_exercise := post_api_users_exercises UTC.Date_parse UTC.toDateString.
Definition get_logs := get_api_users_logs UTC.Date_parse UTC.toDateString.

(** An identifier that casts and that no sample store holds. *)
Definition stranger_id : string := "507f1f77bcf86cd799439012".

End Run.

(* ------------------------------------------------------------------ *)
(** ** Properties of the routes *)

(** Unfolds the plumbing of an [async] body. *)
Ltac run_async :=
  unfold Mongoose.try_catch, Mongoose.await, Mongoose.on_server,
    Mongoose.resolve, Mongoose.reject in *.

Section Properties.

Import Mongoose.

Variable Date_parse : string -> JS.date.
Variable toDateString : Z -> string.

Local Abbreviation add_exercise := (post_api_users_exercises Date_parse toDateString).
Local Abbreviation get_logs := (get_api_users_logs Date_parse toDateString).

(** *** Lists *)

Lemma find_none_existsb {A : Type} (f : A -> bool) (l : list A) :
  find f l = None -> existsb f l = false.
Proof.
  induction l as [|x l IH]; cbn; [reflexivity|].
  destruct (f x); [discriminate | exact IH].
Qed.

Lemma find_none_snoc {A : Type} (f : A -> bool) (l : list A) (x : A) :
  find f l = None -> f x = true -> find f (l ++ [x]) = Some x.
Proof.
  intros Hl Hx. induction l as [|y l IH]; cbn in *.
  - now rewrite Hx.
  - destruct (f y); [discriminate | auto].
Qed.

Lemma existsb_find_some {A : Type} (f : A -> bool) (l : list A) :
  existsb f l = true -> exists x, find f l = Some x.
Proof.
  induction l as [|y l IH]; cbn; [discriminate|].
  destruct (f y); [eauto | exact IH].
Qed.

(** *** Sorting by date *)

Lemma insert_by_date_perm (e : ExerciseDoc) (l : list ExerciseDoc) :
  Permutation (insert_by_date e l) (e :: l).
Proof.
  induction l as [|x l IH]; cbn.
  - apply Permutation_refl.
  - destruct (date e <=? date x).
    + apply Permutation_refl.
    + eapply perm_trans; [apply perm_skip, IH | apply perm_swap].
Qed.

Lemma sort_by_date_perm (l : list ExerciseDoc) :
  Permutation (sort_by_date l) l.
Proof.
  induction l as [|x l IH]; cbn.
  - apply perm_nil.
  - eapply perm_trans; [apply insert_by_date_perm | apply perm_skip, IH].
Qed.

Lemma insert_by_date_sorted (e : ExerciseDoc) (l : list ExerciseDoc) :
  StronglySorted date_le l -> StronglySorted date_le (insert_by_date e l).
Proof.
  induction 1 as [|x l Hs IH Hx]; cbn.
  - constructor; [constructor | constructor].
  - destruct (Z.leb_spec (date e) (date x)) as [Hle|Hgt].
    + constructor; [constructor; assumption|].
      constructor; [exact Hle|].
      eapply Forall_impl; [|exact Hx].
      unfold date_le. intros a Ha. lia.
    + constructor; [exact IH|].
      eapply Permutation_Forall;
        [apply Permutation_sym, insert_by_date_perm|].
      constructor; [unfold date_le; lia | exact Hx].
Qed.

Lemma sort_by_date_sorted (l : list ExerciseDoc) :
  StronglySorted date_le (sort_by_date l).
Proof.
  induction l as [|x l IH]; cbn.
  - constructor.
  - apply insert_by_date_sorted, IH.
Qed.

Lemma in_firstn {A : Type} (n : nat) (l : list A) (a : A) :
  In a (firstn n l) -> In a l.
Proof.
  intros H. rewrite <- (firstn_skipn n l). apply in_or_app. now left.
Qed.

Lemma sorted_firstn (n : nat) (l : list ExerciseDoc) :
  StronglySorted date_le l -> StronglySorted date_le (firstn n l).
Proof.
  intros H. revert n. induction H as [|x l Hs IH Hx]; intros [|n]; cbn;
    try constructor.
  - apply IH.
  - rewrite Forall_forall in *. intros a Ha. apply Hx.
    eapply in_firstn, Ha.
Qed.

Lemma sorted_split (n : nat) (l : list ExerciseDoc) :
  StronglySorted date_le l ->
  forall a b, In a (firstn n l) -> In b (skipn n l) -> date a <= date b.
Proof.
  intros H. revert n. induction H as [|x l Hs IH Hx]; intros [|n] a b;
    cbn; try tauto.
  intros [<-|Ha] Hb.
  - rewrite Forall_forall in Hx. apply Hx.
    rewrite <- (firstn_skipn n l). apply in_or_app. now right.
  - eapply IH; eauto.
Qed.

(** *** Registration *)

Lemma username_taken_spec (name : string) (l : list UserDoc) :
  username_taken name l = true <-> In name (map username l).
Proof.
  unfold username_taken. rewrite existsb_exists, in_map_iff.
  split; intros [v [H1 H2]]; exists v.
  - apply String.eqb_eq in H2. auto.
  - split; [exact H2 | apply String.eqb_eq, H1].
Qed.

(** C2: two registrations of one name in a row answer with the same
    [_id]; the second creates nothing; when the name is already stored
    the first answers with the stored user and leaves the store as it
    was; and with the store reachable and a non-empty name both answers
    are 200 and carry an identifier. *)
Theorem register_twice_same_identifier :
  forall (name : string) (s : db),
    let r1 := post_api_users name s in
    let r2 := post_api_users name (snd r1) in
    member "_id" (body (fst r1)) = member "_id" (body (fst r2))
    /\ users (snd r2) = users (snd r1)
    /\ exercises (snd r2) = exercises (snd r1)
    /\ (connected s = true ->
        (exists v : UserDoc, In v (users s) /\ username v = name) ->
        exists u : UserDoc,
          In u (users s) /\ username u = name
          /\ r1 = (res_json (user_json u), s))
    /\ (connected s = true ->
        name <> "" ->
        exists id : string,
          status (fst r1) = 200 /\ status (fst r2) = 200
          /\ member "_id" (body (fst r1)) = Some (JStr id)).
Proof.
  intros name s. cbv zeta.
  assert (Htaken : (exists v : UserDoc, In v (users s) /\ username v = name)
                   -> username_taken name (users s) = true).
  { intros [v [Hin Hv]]. apply username_taken_spec, in_map_iff. eauto. }
  revert Htaken.
  generalize (exists v : UserDoc, In v (users s) /\ username v = name).
  intros stored Htaken.
  unfold post_api_users, User_findOne, User_new, User_save, new_ObjectId,
    required_string.
  run_async.
  destruct (connected s) eqn:Hc; cbn.
  2: { rewrite Hc. cbn. repeat split; intros; discriminate. }
  destruct (find (fun u => (username u =? name)%string) (users s))
    as [u|] eqn:Hf; cbn.
  - rewrite Hc, Hf. cbn. repeat split.
    + intros _ _. exists u. apply find_some in Hf. destruct Hf as [Hin Hu].
      apply String.eqb_eq in Hu. auto.
    + intros _ _. eexists. repeat split.
  - destruct (name =? "")%string eqn:Hn; cbn.
    + rewrite Hc. cbn. rewrite Hf. cbn. repeat split.
      * intros _ Ht. apply Htaken, existsb_find_some in Ht.
        destruct Ht as [x Hx]. congruence.
      * intros _ Hne. apply String.eqb_eq in Hn. contradiction.
    + rewrite Hc. unfold username_taken.
      rewrite (find_none_existsb _ _ Hf). cbn.
      rewrite (find_none_snoc _ (users s) (mkUser (oid_supply s) name) Hf)
        by (cbn; apply String.eqb_refl).
      cbn. repeat split.
      * intros _ Ht. apply Htaken in Ht. unfold username_taken in Ht.
        rewrite (find_none_existsb _ _ Hf) in Ht. discriminate Ht.
      * intros _ _. eexists. repeat split.
Qed.

(** *** Unique user names *)

Lemma nodup_snoc (l : list UserDoc) (u : UserDoc) :
  NoDup (map username l) ->
  username_taken (username u) l = false ->
  NoDup (map username (l ++ [u])).
Proof.
  intros Hl Hu. rewrite map_app. cbn.
  eapply Permutation_NoDup; [apply Permutation_cons_append|].
  constructor; [|exact Hl].
  rewrite <- username_taken_spec, Hu. discriminate.
Qed.

(** C4 as amended: the store refuses to save a user whose name is
    already stored and is left as it was, so a save, and with it the
    registration route, keeps the user names distinct. *)
Theorem username_unique_in_store :
  forall (s : db) (u : UserDoc),
    NoDup (map username (users s)) ->
    ((exists v : UserDoc, In v (users s) /\ username v = username u) ->
     exists e : error, User_save u s = (Rejected e, s))
    /\ NoDup (map username (users (snd (User_save u s))))
    /\ NoDup (map username (users (snd (post_api_users (username u) s)))).
Proof.
  intros s u Hnd.
  assert (Hsave : forall (w : UserDoc) (s0 : db),
             users s0 = users s ->
             NoDup (map username (users (snd (User_save w s0))))).
  { intros w s0 Hs0. unfold User_save. run_async.
    destruct (required_string (username w)); cbn; [|now rewrite Hs0].
    destruct (connected s0); cbn; [|now rewrite Hs0].
    destruct (username_taken (username w) (users s0)) eqn:Ht; cbn;
      [now rewrite Hs0|].
    rewrite Hs0 in *. now apply nodup_snoc. }
  split; [|split].
  - intros [v [Hin Hv]].
    assert (Ht : username_taken (username u) (users s) = true).
    { apply username_taken_spec, in_map_iff. eauto. }
    unfold User_save. run_async.
    destruct (required_string (username u)); [|eauto].
    destruct (connected s); [|eauto].
    rewrite Ht. eauto.
  - apply Hsave. reflexivity.
  - unfold post_api_users, User_findOne, User_new, new_ObjectId.
    run_async.
    destruct (connected s) eqn:Hc; cbn; [|exact Hnd].
    destruct (find _ (users s)); cbn; [exact Hnd|].
    match goal with
    | |- context [User_save ?w ?s0] =>
        specialize (Hsave w s0 eq_refl);
        destruct (User_save w s0) as [[r|e] s1]
    end; exact Hsave.
Qed.

(** *** Adding an exercise *)

Lemma cast_nonempty (id : string) (oid : ObjectId.t) :
  ObjectId.cast id = Some oid -> required_string id = true.
Proof. destruct id; [discriminate | reflexivity]. Qed.

Lemma find_by_id_none (s : db) (userId : string) (oid : ObjectId.t) :
  ~ references s userId ->
  ObjectId.cast userId = Some oid ->
  find (fun v => (user_id v =? oid)%N) (users s) = None.
Proof.
  intros Hn Hid.
  destruct (find _ (users s)) as [u|] eqn:Hf; [|reflexivity].
  apply find_some in Hf. destruct Hf as [Hin Heq].
  apply N.eqb_eq in Heq. exfalso. apply Hn. exists u. split; congruence.
Qed.

(** The add-exercise route on an existing user with a reachable store:
    the answer is decided by the validation of the new document. *)
Lemma add_exercise_run (userId : string) (desc dur dt : JS.field)
    (now : Z) (s : db) (oid : ObjectId.t) (u : UserDoc) :
  connected s = true ->
  ObjectId.cast userId = Some oid ->
  find (fun v => (user_id v =? oid)%N) (users s) = Some u ->
  add_exercise userId desc dur dt now s =
    let s1 := mkDb (connected s) (users s) (exercises s) (oid_supply s + 1) in
    match Exercise_validate
            (mkDraft (oid_supply s) userId desc
               (cast_Number (JS.parseInt dur))
               (cast_Date (exercise_date Date_parse dt now))) with
    | Some e => (res_json (exercise_body toDateString u e),
                 set_exercises (exercises s ++ [e]) s1)
    | None => (res_status_json 500
                 (error_json "Server error adding exercise"), s1)
    end.
Proof.
  intros Hc Hid Hu.
  unfold post_api_users_exercises, User_findById, Exercise_new,
    Exercise_save, new_ObjectId.
  rewrite Hid. run_async. rewrite Hc, Hu. cbn.
  destruct (Exercise_validate _); cbn; rewrite ?Hc; reflexivity.
Qed.

(** C3 as amended: on an existing user with a description, a duration
    that [parseInt] reads as a number of magnitude at most 2^53 (the
    range in which the source's doubles hold every integer) and a date
    that is a valid date are stored and answered as read; a duration read
    as NaN or an invalid date is refused when the document is saved: the
    answer is 500 and no entry is stored. *)
Theorem add_exercise_coercion :
  forall (userId desc : string) (dur dt : JS.field) (now : Z) (s : db)
         (oid : ObjectId.t) (u : UserDoc),
    connected s = true ->
    ObjectId.cast userId = Some oid ->
    find (fun v => (user_id v =? oid)%N) (users s) = Some u ->
    desc <> "" ->
    (forall n t : Z,
        JS.parseInt dur = JS.Num n ->
        Z.abs n <= 2 ^ 53 ->
        exercise_date Date_parse dt now = JS.Time t ->
        let e := mkExercise (oid_supply s) userId desc n t in
        fst (add_exercise userId (Some desc) dur dt now s)
          = res_json (exercise_body toDateString u e)
        /\ exercises (snd (add_exercise userId (Some desc) dur dt now s))
          = (exercises s ++ [e])%list)
    /\ (JS.parseInt dur = JS.NaN
        \/ exercise_date Date_parse dt now = JS.InvalidDate ->
        fst (add_exercise userId (Some desc) dur dt now s)
          = res_status_json 500 (error_json "Server error adding exercise")
        /\ exercises (snd (add_exercise userId (Some desc) dur dt now s))
          = exercises s).
Proof.
  intros userId desc dur dt now s oid u Hc Hid Hu Hdesc.
  rewrite (add_exercise_run userId (Some desc) dur dt now s oid u)
    by assumption.
  unfold Exercise_validate. cbn.
  rewrite (cast_nonempty _ _ Hid).
  assert (Hd : required_string desc = true).
  { unfold required_string. destruct (String.eqb_spec desc ""); auto. }
  rewrite Hd. split.
  - intros n t -> _ ->. cbn. split; reflexivity.
  - intros [-> | ->]; cbn; [|destruct (cast_Number _)]; split; reflexivity.
Qed.


(** C5 as amended: a request whose path parameter refers to no stored
    user stores no entry; when the parameter casts to an identifier and
    the store is reachable, both routes answer 404 with the message
    [User not found] and leave the store as it was. *)
Theorem unknown_user_not_found :
  forall (userId : string) (desc dur dt from to limit : JS.field)
         (now : Z) (s : db),
    ~ references s userId ->
    exercises (snd (add_exercise userId desc dur dt now s)) = exercises s
    /\ (forall oid : ObjectId.t,
          ObjectId.cast userId = Some oid ->
          connected s = true ->
          add_exercise userId desc dur dt now s = (not_found, s)
          /\ get_logs userId from to limit s = (not_found, s)).
Proof.
  intros userId desc dur dt from to limit now s Hn.
  unfold post_api_users_exercises, get_api_users_logs, User_findById.
  destruct (ObjectId.cast userId) as [oid|] eqn:Hid.
  - run_async. rewrite (find_by_id_none s userId oid Hn Hid).
    split.
    + destruct (connected s); reflexivity.
    + intros oid' _ ->. split; reflexivity.
  - run_async. split; [reflexivity | discriminate].
Qed.

(** *** The bulk deletes *)

(** C10: deleting all users leaves the exercises as they were, and
    deleting all exercises leaves the users as they were. *)
Theorem bulk_delete_frame :
  forall s : db,
    exercises (snd (get_api_users_delete s)) = exercises s
    /\ users (snd (get_api_exercises_delete s)) = users s.
Proof.
  intros s. unfold get_api_users_delete, get_api_exercises_delete,
    User_deleteMany, Exercise_deleteMany.
  run_async. destruct (connected s); split; reflexivity.
Qed.

(** C8: a bulk delete whose [deleteMany] is rejected still answers with
    status 200, the body being the failure message alone; and neither
    route ever answers with another status. *)
Theorem bulk_delete_failure_answers_200 :
  forall (s : db) (e : error),
    (fst (User_deleteMany s) = Rejected e ->
     fst (get_api_users_delete s)
       = mkResponse 200 (JObj [("message", JStr "Deleting all users failed!")]))
    /\ (fst (Exercise_deleteMany s) = Rejected e ->
        fst (get_api_exercises_delete s)
          = mkResponse 200
              (JObj [("message", JStr "Deleting all exercises failed!")]))
    /\ status (fst (get_api_users_delete s)) = 200
    /\ status (fst (get_api_exercises_delete s)) = 200.
Proof.
  intros s e.
  unfold get_api_users_delete, get_api_exercises_delete,
    User_deleteMany, Exercise_deleteMany.
  run_async.
  destruct (connected s); cbn; repeat split; intros H;
    try reflexivity; discriminate H.
Qed.

(** *** The exercise log *)

Lemma build_filter_fields (_id : string) (from to : JS.field) :
  filter_userId (build_filter Date_parse _id from to) = _id
  /\ filter_gte (build_filter Date_parse _id from to) = bound_of Date_parse from
  /\ filter_lte (build_filter Date_parse _id from to) = bound_of Date_parse to.
Proof.
  unfold build_filter, bound_of.
  destruct (JS.truthy from), (JS.truthy to); cbn; auto.
Qed.

Lemma matches_spec (uid : string) (lo hi : option Z) (e : ExerciseDoc) :
  matches uid lo hi e = true
  <-> userId e = uid /\ in_range lo hi (date e).
Proof.
  unfold matches, in_range.
  rewrite !andb_true_iff, String.eqb_eq.
  destruct lo as [l|], hi as [h|]; rewrite ?Z.leb_le; split.
  all: try (intros [[Hu Hl] Hh]; repeat split; auto; intros t [= <-]; auto).
  all: try (intros (Hu & Hl & Hh); repeat split; auto).
  all: try discriminate.
Qed.

Lemma apply_limit_incl (limit : option JS.number) (l sel : list ExerciseDoc) :
  apply_limit limit l = Some sel -> incl sel l.
Proof.
  unfold apply_limit. destruct limit as [[[|p|p]|]|]; intros [= <-];
    try apply incl_refl; intros a; apply in_firstn.
Qed.

(** The log route on an existing user, with a reachable store and date
    bounds that cast: the answer is decided by the limit alone. *)
Lemma get_logs_run (_id : string) (from to limit : JS.field) (s : db)
    (oid : ObjectId.t) (u : UserDoc) (lo hi : option Z) :
  connected s = true ->
  ObjectId.cast _id = Some oid ->
  find (fun v => (user_id v =? oid)%N) (users s) = Some u ->
  cast_bound (bound_of Date_parse from) = Some lo ->
  cast_bound (bound_of Date_parse to) = Some hi ->
  get_logs _id from to limit s =
    match apply_limit (limit_arg limit)
            (sort_by_date (filter (matches _id lo hi) (exercises s))) with
    | Some sel => (res_json (logs_body toDateString u sel), s)
    | None => (res_status_json 500
                 (error_json "Server error retrieving exercise log"), s)
    end.
Proof.
  intros Hc Hid Hu Hlo Hhi.
  unfold get_api_users_logs, User_findById, Exercise_find.
  destruct (build_filter_fields _id from to) as (-> & -> & ->).
  rewrite Hid, Hlo, Hhi. run_async. rewrite Hc, Hu, Hc.
  destruct (apply_limit _ _); reflexivity.
Qed.

(** C6: on an existing user, with [from] and [to] each absent or read as
    a valid date, the log without a limit holds exactly the user's
    entries dated within the range, both ends counted in; and whatever
    the limit, a 200 answer holds no entry dated outside the range. *)
Theorem logs_date_range_inclusive :
  forall (_id : string) (from to limit : JS.field) (s : db)
         (oid : ObjectId.t) (u : UserDoc) (lo hi : option Z),
    connected s = true ->
    ObjectId.cast _id = Some oid ->
    find (fun v => (user_id v =? oid)%N) (users s) = Some u ->
    cast_bound (bound_of Date_parse from) = Some lo ->
    cast_bound (bound_of Date_parse to) = Some hi ->
    JS.truthy limit = false ->
    (exists sel : list ExerciseDoc,
        fst (get_logs _id from to limit s) = res_json (logs_body toDateString u sel)
        /\ Permutation sel (filter (matches _id lo hi) (exercises s))
        /\ (forall e : ExerciseDoc,
              In e sel <->
              In e (exercises s) /\ userId e = _id
              /\ in_range lo hi (date e)))
    /\ (forall (limit' : JS.field),
          status (fst (get_logs _id from to limit' s)) = 200 ->
          exists sel' : list ExerciseDoc,
            fst (get_logs _id from to limit' s) = res_json (logs_body toDateString u sel')
            /\ (forall e : ExerciseDoc,
                  In e sel' ->
                  In e (exercises s) /\ userId e = _id
                  /\ in_range lo hi (date e))).
Proof.
  intros _id from to limit s oid u lo hi Hc Hid Hu Hlo Hhi Hlim.
  assert (Hmem : forall e,
             In e (sort_by_date (filter (matches _id lo hi) (exercises s)))
             <-> In e (exercises s) /\ userId e = _id
                 /\ in_range lo hi (date e)).
  { intros e. rewrite <- matches_spec, <- filter_In. split.
    - apply Permutation_in, sort_by_date_perm.
    - apply Permutation_in, Permutation_sym, sort_by_date_perm. }
  split.
  - exists (sort_by_date (filter (matches _id lo hi) (exercises s))).
    rewrite (get_logs_run _id from to limit s oid u lo hi) by assumption.
    unfold limit_arg. rewrite Hlim. cbn.
    split; [reflexivity|]. split; [apply sort_by_date_perm | exact Hmem].
  - intros limit'.
    rewrite (get_logs_run _id from to limit' s oid u lo hi) by assumption.
    destruct (apply_limit _ _) as [sel'|] eqn:Hsel; cbn; [|discriminate].
    intros _. exists sel'. split; [reflexivity|].
    intros e He. apply Hmem. eapply apply_limit_incl; eauto.
Qed.

(** C1 as amended: on an existing user, a limit that [parseInt] reads as
    a number [n >= 1] selects the first [n] of the matching entries in
    ascending date order: at most [n] entries, all of the matching ones
    when there are fewer, in date order, none dated after an entry left
    out. *)
Theorem logs_limit_earliest :
  forall (_id : string) (from to limit : JS.field) (s : db)
         (oid : ObjectId.t) (u : UserDoc) (lo hi : option Z) (n : Z),
    connected s = true ->
    ObjectId.cast _id = Some oid ->
    find (fun v => (user_id v =? oid)%N) (users s) = Some u ->
    cast_bound (bound_of Date_parse from) = Some lo ->
    cast_bound (bound_of Date_parse to) = Some hi ->
    JS.parseInt limit = JS.Num n ->
    1 <= n ->
    exists sel rest : list ExerciseDoc,
      fst (get_logs _id from to limit s) = res_json (logs_body toDateString u sel)
      /\ Z.of_nat (List.length sel) <= n
      /\ List.length sel
         = Nat.min (Z.to_nat n)
             (List.length (filter (matches _id lo hi) (exercises s)))
      /\ Permutation (sel ++ rest)
           (filter (matches _id lo hi) (exercises s))
      /\ StronglySorted date_le sel
      /\ (forall a b : ExerciseDoc,
            In a sel -> In b rest -> date a <= date b).
Proof.
  intros _id from to limit s oid u lo hi n Hc Hid Hu Hlo Hhi Hn Hpos.
  set (matching := filter (matches _id lo hi) (exercises s)).
  assert (Ht : JS.truthy limit = true).
  { destruct limit as [[|c r]|]; [discriminate Hn | reflexivity
                                 | discriminate Hn]. }
  exists (firstn (Z.to_nat n) (sort_by_date matching)),
         (skipn (Z.to_nat n) (sort_by_date matching)).
  rewrite (get_logs_run _id from to limit s oid u lo hi) by assumption.
  fold matching. unfold limit_arg. rewrite Ht, Hn.
  assert (Hl : apply_limit (Some (JS.Num n)) (sort_by_date matching)
               = Some (firstn (Z.to_nat n) (sort_by_date matching))).
  { destruct n as [|p|p]; try lia. cbn [apply_limit].
    now rewrite Zabs2Nat.abs_nat_nonneg by lia. }
  rewrite Hl. cbn [fst].
  assert (Hlen : List.length (sort_by_date matching) = List.length matching)
    by apply Permutation_length, sort_by_date_perm.
  repeat split.
  - rewrite length_firstn. lia.
  - rewrite length_firstn, Hlen. reflexivity.
  - rewrite firstn_skipn. apply sort_by_date_perm.
  - apply sorted_firstn, sort_by_date_sorted.
  - apply sorted_split, sort_by_date_sorted.
Qed.

(** C7: in every 200 answer of the log route, [count] is the number of
    elements of [log]. *)
Theorem logs_count_is_log_length :
  forall (_id : string) (from to limit : JS.field) (s : db),
    status (fst (get_logs _id from to limit s)) = 200 ->
    exists log : list json,
      member "log" (body (fst (get_logs _id from to limit s)))
        = Some (JArr log)
      /\ member "count" (body (fst (get_logs _id from to limit s)))
        = Some (JNum (Z.of_nat (List.length log))).
Proof.
  intros _id from to limit s.
  unfold get_api_users_logs. run_async.
  destruct (User_findById _id s) as [[[u|]|e] s1]; cbn;
    try discriminate.
  destruct (Exercise_find (build_filter Date_parse _id from to)
              (limit_arg limit) s1) as [[l|e] s2]; cbn;
    try discriminate.
  intros _. eexists. split; reflexivity.
Qed.

End Properties.

(* ------------------------------------------------------------------ *)
(** ** The properties on concrete requests *)

Import Mongoose.

(** *** The scenarios of the specification *)

(** Registering [alice] on a fresh store, then again. *)
Example scenario_register_twice :
  fst (post_api_users "alice" Sample.empty)
    = res_json (JObj [("username", JStr "alice");
                      ("_id", JStr "000000000000000000000001")])
  /\ fst (post_api_users "alice" (snd (post_api_users "alice" Sample.empty)))
    = res_json (JObj [("_id", JStr "000000000000000000000001");
                      ("username", JStr "alice");
                      ("__v", JNum 0)]).
Proof. split; reflexivity. Qed.

(** A run of 30 minutes on 2024-01-01. *)
Example scenario_add_exercise :
  fst (Run.add_exercise Sample.alice_id (Some "run") (Some "30")
         (Some "2024-01-01") 0 Sample.registered)
    = res_json (JObj [("_id", JStr Sample.alice_id);
                      ("username", JStr "alice");
                      ("description", JStr "run");
                      ("duration", JNum 30);
                      ("date", JStr "Mon Jan 01 2024")]).
Proof. reflexivity. Qed.

(** The log with [limit=1]: one element, the earliest by date. *)
Example scenario_limit_one :
  fst (Run.get_logs Sample.alice_id None None (Some "1") Sample.logged)
    = res_json (JObj [("_id", JStr Sample.alice_id);
                      ("username", JStr "alice");
                      ("count", JNum 1);
                      ("log", JArr [JObj [("_id", JStr "000000000000000000000001");
                                          ("description", JStr "run");
                                          ("duration", JNum 30);
                                          ("date", JStr "Mon Jan 01 2024")]])]).
Proof. reflexivity. Qed.

(** *** The theorems at concrete requests *)

(** With [limit=2], the log of the sample store holds the two earliest of
    its three entries. *)
Lemma logs_limit_earliest_witness :
  exists sel rest : list ExerciseDoc,
    fst (Run.get_logs Sample.alice_id None None (Some "2") Sample.logged)
      = res_json (logs_body UTC.toDateString Sample.alice sel)
    /\ Z.of_nat (List.length sel) <= 2
    /\ List.length sel
       = Nat.min (Z.to_nat 2)
           (List.length (filter (matches Sample.alice_id None None)
                           (exercises Sample.logged)))
    /\ Permutation (sel ++ rest)
         (filter (matches Sample.alice_id None None) (exercises Sample.logged))
    /\ StronglySorted date_le sel
    /\ (forall a b : ExerciseDoc, In a sel -> In b rest -> date a <= date b).
Proof.
  apply (logs_limit_earliest UTC.Date_parse UTC.toDateString
           Sample.alice_id None None (Some "2") Sample.logged
           (user_id Sample.alice) Sample.alice None None 2);
    try reflexivity.
  lia.
Defined.

(** C1 fails at [limit=0]: the limit is read as the number 0, and the log
    holds all three entries of the sample store. *)
Lemma limit_zero_returns_every_entry :
  JS.parseInt (Some "0") = JS.Num 0
  /\ fst (Run.get_logs Sample.alice_id None None (Some "0") Sample.logged)
     = res_json (logs_body UTC.toDateString Sample.alice
                   [Sample.run_mon; Sample.walk_tue; Sample.swim_wed])
  /\ ~ Z.of_nat (List.length [Sample.run_mon; Sample.walk_tue; Sample.swim_wed]) <= 0.
Proof.
  split; [reflexivity|]. split; [reflexivity|]. cbn. lia.
Qed.

(** Registering [alice] twice on a fresh store. *)
Lemma register_twice_witness :
  exists id : string,
    status (fst (post_api_users "alice" Sample.empty)) = 200
    /\ status (fst (post_api_users "alice"
                      (snd (post_api_users "alice" Sample.empty)))) = 200
    /\ member "_id" (body (fst (post_api_users "alice" Sample.empty)))
       = Some (JStr id).
Proof.
  apply (proj2 (proj2 (proj2 (proj2
           (register_twice_same_identifier "alice" Sample.empty))))).
  - reflexivity.
  - discriminate.
Defined.

(** A duration with a leading integer is stored as that integer. *)
Lemma add_exercise_coercion_witness :
  fst (Run.add_exercise Sample.alice_id (Some "run") (Some "30abc")
         (Some "2024-01-01") 0 Sample.registered)
    = res_json (exercise_body UTC.toDateString Sample.alice
                  (mkExercise 1%N Sample.alice_id "run" 30 1704067200000))
  /\ exercises (snd (Run.add_exercise Sample.alice_id (Some "run")
                       (Some "30abc") (Some "2024-01-01") 0 Sample.registered))
    = [mkExercise 1%N Sample.alice_id "run" 30 1704067200000].
Proof.
  assert (Hdesc : "run" <> "") by discriminate.
  apply (proj1 (add_exercise_coercion UTC.Date_parse UTC.toDateString
                  Sample.alice_id "run" (Some "30abc") (Some "2024-01-01") 0
                  Sample.registered (user_id Sample.alice) Sample.alice
                  eq_refl eq_refl eq_refl Hdesc)
               30 1704067200000);
    [reflexivity | cbn; lia | reflexivity].
Defined.

(** C3 fails on a duration that is not a number: [parseInt] gives NaN, the
    answer is 500 and nothing is stored. *)
Lemma non_numeric_duration_is_refused :
  JS.parseInt (Some "abc") = JS.NaN
  /\ Run.add_exercise Sample.alice_id (Some "run") (Some "abc")
       (Some "2024-01-01") 0 Sample.registered
     = (res_status_json 500 (error_json "Server error adding exercise"),
        mkDb true [Sample.alice] [] 2%N).
Proof.
  split; reflexivity.
Qed.


(** The sample store, whose one user is [alice], refuses a second one. *)
Lemma username_unique_in_store_witness :
  (exists e : error,
      User_save (mkUser 1%N "alice") Sample.registered
        = (Rejected e, Sample.registered))
  /\ NoDup (map username
              (users (snd (User_save (mkUser 1%N "alice") Sample.registered)))).
Proof.
  assert (Hnd : NoDup (map username (users Sample.registered))).
  { cbn. constructor; [intros [] | constructor]. }
  destruct (username_unique_in_store Sample.registered (mkUser 1%N "alice") Hnd)
    as (Hdup & Hsave & _).
  split; [|exact Hsave].
  apply Hdup. exists Sample.alice. split; [now left | reflexivity].
Defined.

(** C4 fails: with [alice] stored, the store itself rejects the save of
    another user named [alice], with no handler involved. *)
Lemma second_alice_is_rejected_by_the_store :
  In Sample.alice (users Sample.registered)
  /\ User_save (mkUser 1%N "alice") Sample.registered
     = (Rejected DuplicateKey, Sample.registered).
Proof.
  split; [now left | reflexivity].
Qed.

Lemma stranger_is_unknown : ~ references Sample.logged Run.stranger_id.
Proof.
  intros [u [[<-|[]] Hc]]. vm_compute in Hc. discriminate Hc.
Qed.

(** An identifier that casts and is not stored: both routes answer 404. *)
Lemma unknown_user_not_found_witness :
  Run.add_exercise Run.stranger_id (Some "run") (Some "30") None 0 Sample.logged
    = (not_found, Sample.logged)
  /\ Run.get_logs Run.stranger_id None None None Sample.logged
    = (not_found, Sample.logged).
Proof.
  apply (proj2 (unknown_user_not_found UTC.Date_parse UTC.toDateString
                  Run.stranger_id (Some "run") (Some "30") None None None None
                  0 Sample.logged stranger_is_unknown)
               24912482966938930280208240658%N);
    reflexivity.
Defined.

(** C5 fails on a path parameter that is no identifier: [abc] refers to no
    user, and both routes answer 500. *)
Lemma malformed_user_id_answers_500 :
  ~ references Sample.logged "abc"
  /\ fst (Run.get_logs "abc" None None None Sample.logged)
     = res_status_json 500 (error_json "Server error retrieving exercise log")
  /\ fst (Run.add_exercise "abc" (Some "run") (Some "30") None 0 Sample.logged)
     = res_status_json 500 (error_json "Server error adding exercise").
Proof.
  split; [|split; reflexivity].
  intros [u [_ Hc]]. discriminate Hc.
Qed.

(** The log of the sample store from 2024-01-02 to 2024-01-03. *)
Lemma logs_date_range_witness :
  exists sel : list ExerciseDoc,
    fst (Run.get_logs Sample.alice_id (Some "2024-01-02") (Some "2024-01-03")
           None Sample.logged)
      = res_json (logs_body UTC.toDateString Sample.alice sel)
    /\ Permutation sel
         (filter (matches Sample.alice_id (Some 1704153600000)
                    (Some 1704240000000))
            (exercises Sample.logged))
    /\ (forall e : ExerciseDoc,
          In e sel <->
          In e (exercises Sample.logged) /\ userId e = Sample.alice_id
          /\ in_range (Some 1704153600000) (Some 1704240000000) (date e)).
Proof.
  apply (proj1 (logs_date_range_inclusive UTC.Date_parse UTC.toDateString
                  Sample.alice_id (Some "2024-01-02") (Some "2024-01-03") None
                  Sample.logged (user_id Sample.alice) Sample.alice
                  (Some 1704153600000) (Some 1704240000000)
                  eq_refl eq_refl eq_refl eq_refl eq_refl eq_refl)).
Defined.

(** The log of the sample store with [limit=1]. *)
Lemma logs_count_witness :
  exists log : list json,
    member "log" (body (fst (Run.get_logs Sample.alice_id None None (Some "1")
                               Sample.logged)))
      = Some (JArr log)
    /\ member "count" (body (fst (Run.get_logs Sample.alice_id None None
                                    (Some "1") Sample.logged)))
      = Some (JNum (Z.of_nat (List.length log))).
Proof.
  apply (logs_count_is_log_length UTC.Date_parse UTC.toDateString
           Sample.alice_id None None (Some "1") Sample.logged).
  reflexivity.
Defined.

(** Both bulk deletes with the connection down. *)
Lemma bulk_delete_failure_witness :
  fst (get_api_users_delete Sample.offline)
    = mkResponse 200 (JObj [("message", JStr "Deleting all users failed!")])
  /\ fst (get_api_exercises_delete Sample.offline)
    = mkResponse 200 (JObj [("message", JStr "Deleting all exercises failed!")]).
Proof.
  destruct (bulk_delete_failure_answers_200 Sample.offline BufferingTimedOut)
    as (Hu & He & _).
  split; [apply Hu | apply He]; reflexivity.
Defined.

(* ------------------------------------------------------------------ *)
(** ** Further properties of the routes *)

Section Coverage.

Variable Date_parse : string -> JS.date.
Variable toDateString : Z -> string.

Local Abbreviation add_exercise := (post_api_users_exercises Date_parse toDateString).
Local Abbreviation get_logs := (get_api_users_logs Date_parse toDateString).

(** *** The log route, read backwards *)

(** A 200 answer of the log route tells how the request went: the store
    was reachable, the path parameter cast and found a user, both date
    bounds cast, and the limit was accepted. *)
Lemma get_logs_200 (_id : string) (from to limit : JS.field) (s : db) :
  status (fst (get_logs _id from to limit s)) = 200 ->
  exists (oid : ObjectId.t) (u : UserDoc) (lo hi : option Z)
         (sel : list ExerciseDoc),
    connected s = true
    /\ ObjectId.cast _id = Some oid
    /\ find (fun v => (user_id v =? oid)%N) (users s) = Some u
    /\ cast_bound (bound_of Date_parse from) = Some lo
    /\ cast_bound (bound_of Date_parse to) = Some hi
    /\ apply_limit (limit_arg limit)
         (sort_by_date (filter (matches _id lo hi) (exercises s))) = Some sel
    /\ get_logs _id from to limit s
       = (res_json (logs_body toDateString u sel), s).
Proof.
  intros H.
  destruct (ObjectId.cast _id) as [oid|] eqn:Hid.
  2: { unfold get_api_users_logs, User_findById in H. rewrite Hid in H.
       discriminate H. }
  destruct (connected s) eqn:Hc.
  2: { unfold get_api_users_logs, User_findById in H. rewrite Hid in H.
       run_async. rewrite Hc in H. discriminate H. }
  destruct (find (fun v => (user_id v =? oid)%N) (users s)) as [u|] eqn:Hu.
  2: { unfold get_api_users_logs, User_findById in H. rewrite Hid in H.
       run_async. rewrite Hc, Hu in H. discriminate H. }
  destruct (cast_bound (bound_of Date_parse from)) as [lo|] eqn:Hlo.
  2: { unfold get_api_users_logs, User_findById, Exercise_find in H.
       destruct (build_filter_fields Date_parse _id from to) as (_ & Eg & _).
       rewrite Hid, Eg, Hlo in H. run_async. rewrite Hc, Hu in H.
       discriminate H. }
  destruct (cast_bound (bound_of Date_parse to)) as [hi|] eqn:Hhi.
  2: { unfold get_api_users_logs, User_findById, Exercise_find in H.
       destruct (build_filter_fields Date_parse _id from to) as (_ & Eg & El).
       rewrite Hid, Eg, El, Hlo, Hhi in H. run_async. rewrite Hc, Hu in H.
       discriminate H. }
  rewrite (get_logs_run Date_parse toDateString _id from to limit s oid u lo hi)
    in * by assumption.
  destruct (apply_limit _ _) as [sel|] eqn:Hsel; [|discriminate H].
  exists oid, u, lo, hi, sel. repeat split; first [reflexivity | assumption].
Qed.

Lemma apply_limit_sorted (limit : option JS.number) (l sel : list ExerciseDoc) :
  StronglySorted date_le l ->
  apply_limit limit l = Some sel ->
  StronglySorted date_le sel.
Proof.
  intros Hs. unfold apply_limit.
  destruct limit as [[[|p|p]|]|]; intros [= <-]; auto using sorted_firstn.
Qed.

(** X1: the two routes that only read leave the store exactly as it was,
    whatever they answer. *)
Theorem read_routes_leave_the_store :
  forall (_id : string) (from to limit : JS.field) (s : db),
    snd (get_api_users s) = s
    /\ snd (get_logs _id from to limit s) = s.
Proof.
  intros _id from to limit s. split.
  - unfold get_api_users, User_find_all. run_async.
    destruct (connected s); reflexivity.
  - unfold get_api_users_logs, User_findById, Exercise_find. run_async.
    destruct (ObjectId.cast _id); [|reflexivity].
    destruct (connected s) eqn:Hc; [|reflexivity].
    destruct (find _ (users s)); [|reflexivity].
    destruct (cast_bound _); [|reflexivity].
    destruct (cast_bound _); [|reflexivity].
    rewrite Hc. destruct (apply_limit _ _); reflexivity.
Qed.

(** X2: every 200 answer of the log route lists entries of the store
    whose [userId] is the path parameter, in ascending order of date,
    whatever [from], [to] and [limit] are. *)
Theorem logs_sorted_by_date :
  forall (_id : string) (from to limit : JS.field) (s : db),
    status (fst (get_logs _id from to limit s)) = 200 ->
    exists (u : UserDoc) (sel : list ExerciseDoc),
      fst (get_logs _id from to limit s)
        = res_json (logs_body toDateString u sel)
      /\ StronglySorted date_le sel
      /\ (forall e : ExerciseDoc,
            In e sel -> In e (exercises s) /\ userId e = _id).
Proof.
  intros _id from to limit s H.
  destruct (get_logs_200 _id from to limit s H)
    as (oid & u & lo & hi & sel & _ & _ & _ & _ & _ & Hsel & Hrun).
  exists u, sel. rewrite Hrun. split; [reflexivity|]. split.
  - eapply apply_limit_sorted; [apply sort_by_date_sorted | exact Hsel].
  - intros e He. apply (apply_limit_incl _ _ _ Hsel) in He.
    apply (Permutation_in _ (sort_by_date_perm _)) in He.
    apply filter_In in He. destruct He as [Hin Hm].
    apply matches_spec in Hm. tauto.
Qed.

(** X3: an empty [from], [to] or [limit] in the query string is the same
    request as one without that parameter. *)
Theorem empty_query_parameter_is_absent :
  forall (_id : string) (from to limit : JS.field) (s : db),
    get_logs _id (Some "") to limit s = get_logs _id None to limit s
    /\ get_logs _id from (Some "") limit s = get_logs _id from None limit s
    /\ get_logs _id from to (Some "") s = get_logs _id from to None s.
Proof.
  intros _id from to limit s.
  unfold get_api_users_logs, build_filter, limit_arg. cbn.
  split; [reflexivity|]. split; [|reflexivity].
  destruct (JS.truthy from); reflexivity.
Qed.

(** X4: on an existing user, a [from] or [to] that is present and is not
    read as a valid date makes the log route answer 500. *)
Theorem unparseable_bound_answers_500 :
  forall (_id : string) (from to limit : JS.field) (s : db)
         (oid : ObjectId.t) (u : UserDoc),
    connected s = true ->
    ObjectId.cast _id = Some oid ->
    find (fun v => (user_id v =? oid)%N) (users s) = Some u ->
    bound_of Date_parse from = Some JS.InvalidDate
    \/ bound_of Date_parse to = Some JS.InvalidDate ->
    get_logs _id from to limit s
      = (res_status_json 500
           (error_json "Server error retrieving exercise log"), s).
Proof.
  intros _id from to limit s oid u Hc Hid Hu Hbad.
  unfold get_api_users_logs, User_findById, Exercise_find.
  destruct (build_filter_fields Date_parse _id from to) as (_ & -> & ->).
  rewrite Hid. run_async. rewrite Hc, Hu.
  destruct Hbad as [-> | ->]; cbn; [reflexivity|].
  destruct (cast_bound _); reflexivity.
Qed.

(** X5: with the connection down, the four routes that serve data answer
    500, each with its own message, and the store is as it was. *)
Theorem store_down_answers_500 :
  forall (name userId : string) (desc dur dt from to limit : JS.field)
         (now : Z) (s : db),
    connected s = false ->
    post_api_users name s
      = (res_status_json 500 (error_json "Server error creating user"), s)
    /\ get_api_users s
       = (res_status_json 500 (error_json "Server error retrieving users"), s)
    /\ add_exercise userId desc dur dt now s
       = (res_status_json 500 (error_json "Server error adding exercise"), s)
    /\ get_logs userId from to limit s
       = (res_status_json 500
            (error_json "Server error retrieving exercise log"), s).
Proof.
  intros name userId desc dur dt from to limit now s Hc.
  unfold post_api_users, get_api_users, post_api_users_exercises,
    get_api_users_logs, User_findOne, User_find_all, User_findById.
  run_async. rewrite Hc.
  repeat split; destruct (ObjectId.cast userId); cbn; rewrite ?Hc; reflexivity.
Qed.

(** *** Adding an exercise, read backwards and forwards *)

(** A 200 answer of the add-exercise route tells that the user was found,
    the new document passed validation and was appended. *)
Lemma add_exercise_200 (userId : string) (desc dur dt : JS.field) (now : Z)
    (s : db) :
  status (fst (add_exercise userId desc dur dt now s)) = 200 ->
  exists (oid : ObjectId.t) (u : UserDoc) (e : ExerciseDoc),
    connected s = true
    /\ ObjectId.cast userId = Some oid
    /\ find (fun v => (user_id v =? oid)%N) (users s) = Some u
    /\ Mongoose.userId e = userId
    /\ add_exercise userId desc dur dt now s
       = (res_json (exercise_body toDateString u e),
          mkDb (connected s) (users s) (exercises s ++ [e])
            (oid_supply s + 1)).
Proof.
  intros H.
  destruct (ObjectId.cast userId) as [oid|] eqn:Hid.
  2: { unfold post_api_users_exercises, User_findById in H.
       rewrite Hid in H. discriminate H. }
  destruct (connected s) eqn:Hc.
  2: { unfold post_api_users_exercises, User_findById in H.
       rewrite Hid in H. run_async. rewrite Hc in H. discriminate H. }
  destruct (find (fun v => (user_id v =? oid)%N) (users s)) as [u|] eqn:Hu.
  2: { unfold post_api_users_exercises, User_findById in H.
       rewrite Hid in H. run_async. rewrite Hc, Hu in H. discriminate H. }
  rewrite (add_exercise_run Date_parse toDateString userId desc dur dt now s
             oid u) in * by assumption.
  cbv zeta in *.
  destruct (Exercise_validate _) as [e|] eqn:Hv; [|discriminate H].
  exists oid, u, e. repeat split; try first [reflexivity | assumption].
  - unfold Exercise_validate in Hv. cbn in Hv.
    destruct desc as [d|]; [|discriminate Hv].
    destruct (cast_Number _); [|discriminate Hv].
    destruct (cast_Date _); [|discriminate Hv].
    destruct (_ && _); [|discriminate Hv].
    injection Hv as <-. reflexivity.
  - unfold set_exercises. cbn. rewrite Hc. reflexivity.
Qed.

(** What the add-exercise route does to the store, whatever it answers:
    at most one entry is appended, filed under the path parameter, and an
    identifier may be used up. *)
Lemma add_exercise_effect (userId : string) (desc dur dt : JS.field)
    (now : Z) (s : db) :
  exists (k : N) (l : list ExerciseDoc),
    snd (add_exercise userId desc dur dt now s)
      = mkDb (connected s) (users s) (exercises s ++ l) (oid_supply s + k)
    /\ (List.length l <= 1)%nat
    /\ (forall e : ExerciseDoc, In e l -> Mongoose.userId e = userId).
Proof.
  assert (Hsame : snd (add_exercise userId desc dur dt now s) = s
                  -> exists (k : N) (l : list ExerciseDoc),
                    snd (add_exercise userId desc dur dt now s)
                      = mkDb (connected s) (users s) (exercises s ++ l)
                          (oid_supply s + k)
                    /\ (List.length l <= 1)%nat
                    /\ (forall e, In e l -> Mongoose.userId e = userId)).
  { intros ->. exists 0%N, []. rewrite app_nil_r, N.add_0_r.
    destruct s; cbn. repeat split; [lia | intros e []]. }
  destruct (ObjectId.cast userId) as [oid|] eqn:Hid.
  2: { apply Hsame. unfold post_api_users_exercises, User_findById.
       rewrite Hid. reflexivity. }
  destruct (connected s) eqn:Hc.
  2: { apply Hsame. unfold post_api_users_exercises, User_findById.
       rewrite Hid. run_async. rewrite Hc. reflexivity. }
  destruct (find (fun v => (user_id v =? oid)%N) (users s)) as [u|] eqn:Hu.
  2: { apply Hsame. unfold post_api_users_exercises, User_findById.
       rewrite Hid. run_async. rewrite Hc, Hu. reflexivity. }
  clear Hsame.
  destruct (status (fst (add_exercise userId desc dur dt now s)) =? 200)
    eqn:Hst.
  - apply Z.eqb_eq in Hst.
    destruct (add_exercise_200 userId desc dur dt now s Hst)
      as (oid' & u' & e & _ & _ & _ & He & Hrun).
    rewrite Hrun. exists 1%N, [e]. rewrite Hc. cbn.
    repeat split; [lia | intros e' [<-|[]]; exact He].
  - rewrite (add_exercise_run Date_parse toDateString userId desc dur dt now
               s oid u) in * by assumption.
    cbv zeta in *.
    destruct (Exercise_validate _); [discriminate Hst|].
    exists 1%N, []. rewrite app_nil_r, Hc. cbn.
    repeat split; [lia | intros e []].
Qed.

(** The answer of the log route depends on the connection, the users and
    the entries filed under the path parameter, and on nothing else of
    the store. *)
Lemma get_logs_depends_on (_id : string) (from to limit : JS.field)
    (s1 s2 : db) :
  connected s1 = connected s2 ->
  users s1 = users s2 ->
  (forall lo hi : option Z,
      filter (matches _id lo hi) (exercises s1)
      = filter (matches _id lo hi) (exercises s2)) ->
  fst (get_logs _id from to limit s1) = fst (get_logs _id from to limit s2).
Proof.
  intros Hc Hu Hf.
  unfold get_api_users_logs, User_findById, Exercise_find.
  destruct (build_filter_fields Date_parse _id from to) as (-> & -> & ->).
  run_async.
  destruct (ObjectId.cast _id); [|reflexivity].
  rewrite Hc, Hu.
  destruct (connected s2) eqn:Hc2; [|reflexivity].
  destruct (find _ (users s2)); [|reflexivity].
  destruct (cast_bound _) as [lo|]; [|reflexivity].
  destruct (cast_bound _) as [hi|]; [|reflexivity].
  rewrite Hc, Hc2, Hf.
  destruct (apply_limit _ _); reflexivity.
Qed.


(** X7: entries are filed under the text of the path parameter: a request
    that adds an exercise under one path parameter changes no answer of
    the log route for a different one, even one that casts to the same
    identifier. *)
Theorem add_exercise_leaves_other_logs :
  forall (userId other : string) (desc dur dt from to limit : JS.field)
         (now : Z) (s : db),
    other <> userId ->
    fst (get_logs other from to limit
           (snd (add_exercise userId desc dur dt now s)))
      = fst (get_logs other from to limit s).
Proof.
  intros userId other desc dur dt from to limit now s Hne.
  destruct (add_exercise_effect userId desc dur dt now s)
    as (k & l & -> & _ & Hl).
  apply get_logs_depends_on; cbn; try reflexivity.
  intros lo hi. rewrite filter_app.
  assert (Hnone : filter (matches other lo hi) l = []).
  { induction l as [|e l IH]; [reflexivity|]. cbn.
    assert (He : Mongoose.userId e = userId) by (apply Hl; now left).
    unfold matches at 1. rewrite He.
    destruct (String.eqb_spec userId other) as [E|_]; [congruence|].
    cbn. apply IH. intros e' He'. apply Hl. now right. }
  rewrite Hnone. apply app_nil_r.
Qed.

(** *** Registration, read forwards *)

(** Registering a name that no stored user has, over a reachable store. *)
Lemma register_new_run (name : string) (s : db) :
  connected s = true ->
  name <> "" ->
  (forall u : UserDoc, In u (users s) -> username u <> name) ->
  post_api_users name s
    = (res_json (JObj [("username", JStr name);
                       ("_id", oid_json (oid_supply s))]),
       mkDb (connected s) (users s ++ [mkUser (oid_supply s) name])
         (exercises s) (oid_supply s + 1)).
Proof.
  intros Hc Hne Hnew.
  assert (Hf : find (fun u => (username u =? name)%string) (users s) = None).
  { destruct (find _ (users s)) as [u|] eqn:Hf; [|reflexivity].
    apply find_some in Hf. destruct Hf as [Hin Hu].
    apply String.eqb_eq in Hu. exfalso. exact (Hnew u Hin Hu). }
  unfold post_api_users, User_findOne, User_new, User_save, new_ObjectId,
    required_string, username_taken.
  run_async. rewrite Hc, Hf. cbn.
  destruct (String.eqb_spec name ""); [contradiction|]. cbn.
  rewrite (find_none_existsb _ _ Hf), Hc. cbn. rewrite ?Hc. reflexivity.
Qed.

(** What the registration route does to the store, whatever it answers. *)
Lemma register_effect (name : string) (s : db) :
  exists (k : N) (l : list UserDoc),
    snd (post_api_users name s)
      = mkDb (connected s) (users s ++ l) (exercises s) (oid_supply s + k)
    /\ (List.length l <= 1)%nat
    /\ (forall u : UserDoc, In u l -> username u = name).
Proof.
  unfold post_api_users, User_findOne, User_new, User_save, new_ObjectId.
  run_async.
  assert (Hsame : exists (k : N) (l : list UserDoc),
             s = mkDb (connected s) (users s ++ l) (exercises s)
                   (oid_supply s + k)
             /\ (List.length l <= 1)%nat
             /\ (forall u, In u l -> username u = name)).
  { exists 0%N, []. rewrite app_nil_r, N.add_0_r.
    split; [destruct s; reflexivity|].
    split; [cbn; lia | intros u []]. }
  destruct (connected s) eqn:Hc; cbn; [|exact Hsame].
  destruct (find _ (users s)); cbn; [exact Hsame|].
  destruct (required_string name); cbn.
  - rewrite ?Hc. destruct (existsb _ (users s)); cbn.
    + exists 1%N, []. rewrite app_nil_r.
      split; [reflexivity|]. split; [cbn; lia | intros u []].
    + exists 1%N, [mkUser (oid_supply s) name].
      split; [reflexivity|].
      split; [cbn; lia | intros u [<-|[]]; reflexivity].
  - exists 1%N, []. rewrite app_nil_r.
    split; [rewrite ?Hc; reflexivity|]. split; [cbn; lia | intros u []].
Qed.

(** X8: each route that writes appends at most one document to its own
    collection and touches nothing else: registration leaves the
    exercises alone and adds at most one user, of the name asked for,
    after the stored ones; adding an exercise leaves the users alone and
    adds at most one entry, filed under the path parameter, after the
    stored ones. *)
Theorem writes_append_to_their_collection :
  forall (name userId : string) (desc dur dt : JS.field) (now : Z) (s : db),
    exercises (snd (post_api_users name s)) = exercises s
    /\ (exists l : list UserDoc,
          users (snd (post_api_users name s)) = (users s ++ l)%list
          /\ (List.length l <= 1)%nat
          /\ (forall u : UserDoc, In u l -> username u = name))
    /\ users (snd (add_exercise userId desc dur dt now s)) = users s
    /\ (exists l : list ExerciseDoc,
          exercises (snd (add_exercise userId desc dur dt now s))
            = (exercises s ++ l)%list
          /\ (List.length l <= 1)%nat
          /\ (forall e : ExerciseDoc, In e l -> Mongoose.userId e = userId)).
Proof.
  intros name userId desc dur dt now s.
  destruct (register_effect name s) as (k & l & -> & Hlen & Hl).
  destruct (add_exercise_effect userId desc dur dt now s)
    as (k' & l' & -> & Hlen' & Hl').
  cbn. repeat split; eauto.
Qed.

(** X9: on an existing user, a request to add an exercise with no
    description, an empty description or no duration is answered 500, and
    no entry is stored. *)
Theorem add_exercise_required_fields :
  forall (userId : string) (desc dur dt : JS.field) (now : Z) (s : db)
         (oid : ObjectId.t) (u : UserDoc),
    connected s = true ->
    ObjectId.cast userId = Some oid ->
    find (fun v => (user_id v =? oid)%N) (users s) = Some u ->
    desc = None \/ desc = Some "" \/ dur = None ->
    fst (add_exercise userId desc dur dt now s)
      = res_status_json 500 (error_json "Server error adding exercise")
    /\ exercises (snd (add_exercise userId desc dur dt now s)) = exercises s.
Proof.
  intros userId desc dur dt now s oid u Hc Hid Hu Hmiss.
  rewrite (add_exercise_run Date_parse toDateString userId desc dur dt now s
             oid u) by assumption.
  unfold Exercise_validate. cbn.
  destruct Hmiss as [-> | [-> | ->]]; cbn.
  - split; reflexivity.
  - destruct (cast_Number _); [|split; reflexivity].
    destruct (cast_Date _); [|split; reflexivity].
    rewrite andb_false_r. split; reflexivity.
  - destruct desc; split; reflexivity.
Qed.

(** X10: over a reachable store where no user has the empty name,
    registering the empty name is answered 500 and no user is created. *)
Theorem register_empty_name_answers_500 :
  forall s : db,
    connected s = true ->
    (forall u : UserDoc, In u (users s) -> username u <> "") ->
    fst (post_api_users "" s)
      = res_status_json 500 (error_json "Server error creating user")
    /\ users (snd (post_api_users "" s)) = users s.
Proof.
  intros s Hc Hnone.
  assert (Hf : find (fun u => (username u =? "")%string) (users s) = None).
  { destruct (find _ (users s)) as [u|] eqn:Hf; [|reflexivity].
    apply find_some in Hf. destruct Hf as [Hin Hu].
    apply String.eqb_eq in Hu. exfalso. exact (Hnone u Hin Hu). }
  unfold post_api_users, User_findOne, User_new, User_save, new_ObjectId.
  run_async. rewrite Hc, Hf. split; reflexivity.
Qed.

(** X11: the list route answers with one [_id] and [username] pair per
    stored user, in the order they were stored; after a new, non-empty
    name is registered the list is the old one followed by the pair the
    registration answered with. *)
Theorem registered_user_ends_the_list :
  forall (name : string) (s : db),
    connected s = true ->
    name <> "" ->
    (forall u : UserDoc, In u (users s) -> username u <> name) ->
    exists (id : string) (items : list json),
      fst (post_api_users name s)
        = res_json (JObj [("username", JStr name); ("_id", JStr id)])
      /\ fst (get_api_users s) = res_json (JArr items)
      /\ List.length items = List.length (users s)
      /\ fst (get_api_users (snd (post_api_users name s)))
         = res_json (JArr (items ++ [JObj [("_id", JStr id);
                                          ("username", JStr name)]])).
Proof.
  intros name s Hc Hne Hnew.
  rewrite (register_new_run name s Hc Hne Hnew).
  eexists. eexists.
  unfold get_api_users, User_find_all. run_async. rewrite Hc. cbn.
  rewrite ?Hc. cbn. rewrite map_app. cbn.
  split; [reflexivity|]. split; [reflexivity|].
  split; [apply length_map | reflexivity].
Qed.

(** *** Identifiers in answers and in paths *)

Lemma hex_value_digit (d : N) :
  (d < 16)%N -> ObjectId.hex_value (ObjectId.hex_digit d) = Some d.
Proof.
  intros H.
  assert (Hd : (d = 0 \/ d = 1 \/ d = 2 \/ d = 3 \/ d = 4 \/ d = 5 \/ d = 6
                \/ d = 7 \/ d = 8 \/ d = 9 \/ d = 10 \/ d = 11 \/ d = 12
                \/ d = 13 \/ d = 14 \/ d = 15)%N) by lia.
  repeat (destruct Hd as [-> | Hd]; [reflexivity|]).
  subst d. reflexivity.
Qed.

Lemma length_hex_digits (k : nat) (n : N) (acc : string) :
  String.length (ObjectId.hex_digits k n acc) = (k + String.length acc)%nat.
Proof.
  revert n acc. induction k as [|k IH]; intros n acc; cbn; [reflexivity|].
  rewrite IH. cbn. lia.
Qed.

Lemma of_hex_digits (k : nat) (n : N) (acc : string) (a : N) :
  ObjectId.of_hex (ObjectId.hex_digits k n acc) a
  = ObjectId.of_hex acc (a * 16 ^ N.of_nat k + n mod 16 ^ N.of_nat k)%N.
Proof.
  revert n acc a. induction k as [|k IH]; intros n acc a.
  - cbn. rewrite N.mod_1_r. f_equal. lia.
  - cbn [ObjectId.hex_digits]. rewrite IH. cbn [ObjectId.of_hex].
    rewrite hex_value_digit by (apply N.mod_lt; discriminate).
    f_equal. rewrite Nat2N.inj_succ, N.pow_succ_r'.
    rewrite (N.Div0.mod_mul_r n 16 (16 ^ N.of_nat k)). lia.
Qed.

(** The text an identifier is printed as casts back to the identifier. *)
Lemma cast_toHexString (id : ObjectId.t) :
  (id < 2 ^ 96)%N -> ObjectId.cast (ObjectId.toHexString id) = Some id.
Proof.
  intros H. unfold ObjectId.cast, ObjectId.toHexString.
  rewrite length_hex_digits. cbn [String.length Nat.add Nat.eqb].
  rewrite of_hex_digits. cbn [ObjectId.of_hex]. f_equal.
  change (16 ^ N.of_nat 24)%N with (2 ^ 96)%N.
  rewrite N.mod_small by exact H. lia.
Qed.

(** X12: the [_id] a registration answers with is a path parameter that
    finds the new user.  Over a reachable store, for a new non-empty name
    and a fresh twelve-byte identifier: before the registration the log
    route answers 404 for that [_id], and after it the route answers 200
    with the registered name. *)
Theorem registered_id_finds_the_user :
  forall (name : string) (s : db),
    connected s = true ->
    name <> "" ->
    (forall u : UserDoc, In u (users s) -> username u <> name) ->
    (oid_supply s < 2 ^ 96)%N ->
    (forall u : UserDoc, In u (users s) -> user_id u <> oid_supply s) ->
    exists (id : string) (sel : list ExerciseDoc),
      fst (post_api_users name s)
        = res_json (JObj [("username", JStr name); ("_id", JStr id)])
      /\ fst (get_logs id None None None s) = not_found
      /\ fst (get_logs id None None None (snd (post_api_users name s)))
         = res_json (logs_body toDateString (mkUser (oid_supply s) name) sel).
Proof.
  intros name s Hc Hne Hnew Hsmall Hfresh.
  rewrite (register_new_run name s Hc Hne Hnew). cbn [fst snd].
  assert (Hcast := cast_toHexString (oid_supply s) Hsmall).
  assert (Hf : find (fun v => (user_id v =? oid_supply s)%N) (users s) = None).
  { destruct (find _ (users s)) as [u|] eqn:Hf; [|reflexivity].
    apply find_some in Hf. destruct Hf as [Hin Hu].
    apply N.eqb_eq in Hu. exfalso. exact (Hfresh u Hin Hu). }
  exists (ObjectId.toHexString (oid_supply s)). eexists.
  split; [reflexivity|]. split.
  - unfold get_api_users_logs, User_findById. rewrite Hcast. run_async.
    rewrite Hc, Hf. reflexivity.
  - rewrite (get_logs_run Date_parse toDateString _ None None None _
               (oid_supply s) (mkUser (oid_supply s) name) None None);
      try reflexivity; try assumption.
    cbn. apply find_none_snoc; [exact Hf | cbn; apply N.eqb_refl].
Qed.

(** *** After a bulk delete *)

(** X13: over a reachable store, deleting all users answers with the
    number of users removed; afterwards the list route answers with the
    empty list and every path parameter that casts is answered 404 by the
    add-exercise and log routes, although the entries are still stored. *)
Theorem after_deleting_users :
  forall s : db,
    connected s = true ->
    fst (get_api_users_delete s)
      = res_json (JObj [("message", JStr "All users have been deleted!");
                        ("result",
                         delete_result (Z.of_nat (List.length (users s))))])
    /\ fst (get_api_users (snd (get_api_users_delete s)))
       = res_json (JArr [])
    /\ (forall (userId : string) (oid : ObjectId.t)
               (desc dur dt from to limit : JS.field) (now : Z),
          ObjectId.cast userId = Some oid ->
          fst (add_exercise userId desc dur dt now
                 (snd (get_api_users_delete s))) = not_found
          /\ fst (get_logs userId from to limit
                    (snd (get_api_users_delete s))) = not_found).
Proof.
  intros s Hc.
  unfold get_api_users_delete, User_deleteMany. run_async. rewrite Hc. cbn.
  split; [reflexivity|]. split.
  - unfold get_api_users, User_find_all. run_async. cbn. rewrite Hc.
    reflexivity.
  - intros userId oid desc dur dt from to limit now Hid.
    unfold post_api_users_exercises, get_api_users_logs, User_findById.
    rewrite Hid. run_async. cbn. rewrite Hc. split; reflexivity.
Qed.

(** X14: over a reachable store, deleting all exercises answers with the
    number of entries removed, and afterwards every 200 answer of the log
    route has an empty log and a count of 0. *)
Theorem after_deleting_exercises :
  forall s : db,
    connected s = true ->
    fst (get_api_exercises_delete s)
      = res_json (JObj [("message", JStr "All exercises have been deleted!");
                        ("result",
                         delete_result
                           (Z.of_nat (List.length (exercises s))))])
    /\ (forall (_id : string) (from to limit : JS.field),
          status (fst (get_logs _id from to limit
                         (snd (get_api_exercises_delete s)))) = 200 ->
          exists u : UserDoc,
            fst (get_logs _id from to limit (snd (get_api_exercises_delete s)))
              = res_json (JObj [("_id", oid_json (user_id u));
                                ("username", JStr (username u));
                                ("count", JNum 0);
                                ("log", JArr [])])).
Proof.
  intros s Hc.
  unfold get_api_exercises_delete, Exercise_deleteMany. run_async.
  rewrite Hc. cbn. split; [reflexivity|].
  intros _id from to limit H.
  destruct (get_logs_200 _id from to limit _ H)
    as (oid & u & lo & hi & sel & _ & _ & _ & _ & _ & Hsel & Hrun).
  exists u. rewrite Hrun. cbn [fst].
  cbn in Hsel.
  assert (sel = []) as ->.
  { unfold apply_limit in Hsel.
    destruct (limit_arg limit) as [[[|p|p]|]|]; try discriminate Hsel;
      injection Hsel as <-; try reflexivity; apply firstn_nil. }
  reflexivity.
Qed.

(** *** Numbers with a fraction *)

Lemma trim_start_point (s t : string) :
  JS.trim_start (s ++ String "."%char t)
  = (JS.trim_start s ++ String "."%char t)%string.
Proof.
  induction s as [|c s IH]; cbn; [reflexivity|].
  destruct (JS.is_white c); [exact IH | reflexivity].
Qed.

Lemma strip_sign_point (s t : string) :
  JS.strip_sign (s ++ String "."%char t)
  = (fst (JS.strip_sign s), (snd (JS.strip_sign s) ++ String "."%char t)%string).
Proof.
  destruct s as [|c s]; [reflexivity|].
  destruct c as [[] [] [] [] [] [] [] []]; reflexivity.
Qed.

Lemma strip_prefix_point (s t : string) :
  JS.strip_prefix (s ++ String "."%char t)
  = (fst (JS.strip_prefix s),
     (snd (JS.strip_prefix s) ++ String "."%char t)%string).
Proof.
  destruct s as [|c s]; [reflexivity|].
  destruct c as [[] [] [] [] [] [] [] []]; try reflexivity.
  destruct s as [|x s]; [reflexivity|].
  destruct x as [[] [] [] [] [] [] [] []]; reflexivity.
Qed.

Lemma digits_stop (radix : Z) (c : ascii) (s t : string) (acc : option Z) :
  JS.digit_value c = None ->
  JS.digits radix (s ++ String c t) acc = JS.digits radix s acc.
Proof.
  intros Hc. revert acc. induction s as [|d s IH]; intros acc; cbn.
  - now rewrite Hc.
  - destruct (JS.digit_value d) as [v|]; [|reflexivity].
    destruct (v <? radix); [apply IH | reflexivity].
Qed.

(** X15: [parseInt] stops at a decimal point, so a duration or a limit
    written with a fraction counts as the text before the point: the
    request to add an exercise is handled as if the duration ended
    there. *)
Theorem fraction_is_cut_at_the_point :
  forall (s t : string),
    JS.parseInt (Some (s ++ String "."%char t)) = JS.parseInt (Some s)
    /\ (forall (userId : string) (desc dt : JS.field) (now : Z) (st : db),
          add_exercise userId desc (Some (s ++ String "."%char t)) dt now st
          = add_exercise userId desc (Some s) dt now st).
Proof.
  intros s t.
  assert (H : JS.parseInt (Some (s ++ String "."%char t))
              = JS.parseInt (Some s)).
  { unfold JS.parseInt. cbn [JS.to_string].
    rewrite trim_start_point, strip_sign_point.
    destruct (JS.strip_sign (JS.trim_start s)) as [sign s1]. cbn [fst snd].
    rewrite strip_prefix_point.
    destruct (JS.strip_prefix s1) as [radix s2]. cbn [fst snd].
    rewrite digits_stop by reflexivity. reflexivity. }
  split; [exact H|].
  intros userId desc dt now st. unfold post_api_users_exercises.
  rewrite H. reflexivity.
Qed.

(** *** What a registration answers with *)

(** X16: after a registration answered 200, a user of the name asked for
    is stored, and the answer carries that name and that user's
    identifier, whether the user was found or created. *)
Theorem registration_answers_with_a_stored_user :
  forall (name : string) (s : db),
    status (fst (post_api_users name s)) = 200 ->
    exists u : UserDoc,
      In u (users (snd (post_api_users name s)))
      /\ username u = name
      /\ member "username" (body (fst (post_api_users name s)))
         = Some (JStr name)
      /\ member "_id" (body (fst (post_api_users name s)))
         = Some (oid_json (user_id u)).
Proof.
  intros name s.
  unfold post_api_users, User_findOne, User_new, User_save, new_ObjectId.
  run_async.
  destruct (connected s) eqn:Hc; cbn; [|discriminate].
  destruct (find (fun u => (username u =? name)%string) (users s))
    as [u|] eqn:Hf; cbn.
  - intros _. apply find_some in Hf. destruct Hf as [Hin Hu].
    apply String.eqb_eq in Hu. exists u. rewrite Hu. auto.
  - destruct (required_string name); cbn; [|discriminate].
    rewrite ?Hc. destruct (existsb _ (users s)); cbn; [discriminate|].
    intros _. exists (mkUser (oid_supply s) name). cbn.
    repeat split. apply in_or_app. right. now left.
Qed.

End Coverage.

(* ------------------------------------------------------------------ *)
(** ** The further properties on concrete requests *)

(** The log of the sample store with [limit=2] is in date order. *)
Lemma logs_sorted_by_date_witness :
  exists (u : UserDoc) (sel : list ExerciseDoc),
    fst (Run.get_logs Sample.alice_id None None (Some "2") Sample.logged)
      = res_json (logs_body UTC.toDateString u sel)
    /\ StronglySorted date_le sel
    /\ (forall e : ExerciseDoc,
          In e sel ->
          In e (exercises Sample.logged) /\ userId e = Sample.alice_id).
Proof.
  apply (logs_sorted_by_date UTC.Date_parse UTC.toDateString
           Sample.alice_id None None (Some "2") Sample.logged).
  reflexivity.
Defined.

(** A [from] that is no date. *)
Lemma unparseable_bound_witness :
  Run.get_logs Sample.alice_id (Some "yesterday") None None Sample.logged
    = (res_status_json 500
         (error_json "Server error retrieving exercise log"), Sample.logged).
Proof.
  apply (unparseable_bound_answers_500 UTC.Date_parse UTC.toDateString
           Sample.alice_id (Some "yesterday") None None Sample.logged
           (user_id Sample.alice) Sample.alice);
    try reflexivity.
  left. reflexivity.
Defined.

(** The four data routes with the connection down. *)
Lemma store_down_witness :
  post_api_users "bob" Sample.offline
    = (res_status_json 500 (error_json "Server error creating user"),
       Sample.offline)
  /\ get_api_users Sample.offline
     = (res_status_json 500 (error_json "Server error retrieving users"),
        Sample.offline)
  /\ Run.add_exercise Sample.alice_id (Some "run") (Some "30") None 0
       Sample.offline
     = (res_status_json 500 (error_json "Server error adding exercise"),
        Sample.offline)
  /\ Run.get_logs Sample.alice_id None None None Sample.offline
     = (res_status_json 500
          (error_json "Server error retrieving exercise log"), Sample.offline).
Proof.
  apply (store_down_answers_500 UTC.Date_parse UTC.toDateString
           "bob" Sample.alice_id (Some "run") (Some "30") None None None None
           0 Sample.offline).
  reflexivity.
Defined.


(** The same identifier written in capitals is another path parameter:
    an entry added under the one does not show in the log of the other. *)
Lemma other_logs_witness :
  fst (Run.get_logs "507F1F77BCF86CD799439011" None None None
         (snd (Run.add_exercise Sample.alice_id (Some "row") (Some "15")
                 None 0 Sample.logged)))
    = fst (Run.get_logs "507F1F77BCF86CD799439011" None None None
             Sample.logged).
Proof.
  apply (add_exercise_leaves_other_logs UTC.Date_parse UTC.toDateString
           Sample.alice_id "507F1F77BCF86CD799439011"
           (Some "row") (Some "15") None None None None 0 Sample.logged).
  discriminate.
Defined.

(** A request with no description. *)
Lemma required_fields_witness :
  fst (Run.add_exercise Sample.alice_id None (Some "30") None 0
         Sample.registered)
    = res_status_json 500 (error_json "Server error adding exercise")
  /\ exercises (snd (Run.add_exercise Sample.alice_id None (Some "30") None 0
                       Sample.registered))
     = exercises Sample.registered.
Proof.
  apply (add_exercise_required_fields UTC.Date_parse UTC.toDateString
           Sample.alice_id None (Some "30") None 0 Sample.registered
           (user_id Sample.alice) Sample.alice);
    try reflexivity.
  left. reflexivity.
Defined.

Lemma alice_is_named : forall u : UserDoc,
    In u (users Sample.registered) -> username u <> "".
Proof. intros u [<-|[]]. discriminate. Qed.

Lemma bob_is_new : forall u : UserDoc,
    In u (users Sample.registered) -> username u <> "bob".
Proof. intros u [<-|[]]. discriminate. Qed.

Lemma one_is_fresh : forall u : UserDoc,
    In u (users Sample.registered) ->
    user_id u <> oid_supply Sample.registered.
Proof. intros u [<-|[]]. discriminate. Qed.

(** Registering the empty name on the sample store. *)
Lemma register_empty_name_witness :
  fst (post_api_users "" Sample.registered)
    = res_status_json 500 (error_json "Server error creating user")
  /\ users (snd (post_api_users "" Sample.registered))
     = users Sample.registered.
Proof.
  apply (register_empty_name_answers_500 Sample.registered eq_refl
           alice_is_named).
Defined.

(** Registering [bob] after [alice]. *)
Lemma registered_user_ends_the_list_witness :
  exists (id : string) (items : list json),
    fst (post_api_users "bob" Sample.registered)
      = res_json (JObj [("username", JStr "bob"); ("_id", JStr id)])
    /\ fst (get_api_users Sample.registered) = res_json (JArr items)
    /\ List.length items = List.length (users Sample.registered)
    /\ fst (get_api_users (snd (post_api_users "bob" Sample.registered)))
       = res_json (JArr (items ++ [JObj [("_id", JStr id);
                                        ("username", JStr "bob")]])).
Proof.
  apply (registered_user_ends_the_list "bob" Sample.registered eq_refl).
  - discriminate.
  - exact bob_is_new.
Defined.

(** The identifier [bob] is answered with finds [bob]. *)
Lemma registered_id_witness :
  exists (id : string) (sel : list ExerciseDoc),
    fst (post_api_users "bob" Sample.registered)
      = res_json (JObj [("username", JStr "bob"); ("_id", JStr id)])
    /\ fst (Run.get_logs id None None None Sample.registered) = not_found
    /\ fst (Run.get_logs id None None None
              (snd (post_api_users "bob" Sample.registered)))
       = res_json (logs_body UTC.toDateString
                     (mkUser (oid_supply Sample.registered) "bob") sel).
Proof.
  apply (registered_id_finds_the_user UTC.Date_parse UTC.toDateString
           "bob" Sample.registered eq_refl).
  - discriminate.
  - exact bob_is_new.
  - reflexivity.
  - exact one_is_fresh.
Defined.

(** Deleting the users of the sample store. *)
Lemma after_deleting_users_witness :
  fst (get_api_users_delete Sample.logged)
    = res_json (JObj [("message", JStr "All users have been deleted!");
                      ("result", delete_result 1)])
  /\ fst (get_api_users (snd (get_api_users_delete Sample.logged)))
     = res_json (JArr [])
  /\ fst (Run.get_logs Sample.alice_id None None None
            (snd (get_api_users_delete Sample.logged))) = not_found.
Proof.
  destruct (after_deleting_users UTC.Date_parse UTC.toDateString
              Sample.logged eq_refl) as (Hd & Hl & Hnf).
  split; [exact Hd|]. split; [exact Hl|].
  apply (Hnf Sample.alice_id (user_id Sample.alice)
           None None None None None None 0 eq_refl).
Defined.

(** Deleting the exercises of the sample store. *)
Lemma after_deleting_exercises_witness :
  fst (get_api_exercises_delete Sample.logged)
    = res_json (JObj [("message", JStr "All exercises have been deleted!");
                      ("result", delete_result 3)])
  /\ exists u : UserDoc,
      fst (Run.get_logs Sample.alice_id None None None
             (snd (get_api_exercises_delete Sample.logged)))
        = res_json (JObj [("_id", oid_json (user_id u));
                          ("username", JStr (username u));
                          ("count", JNum 0);
                          ("log", JArr [])]).
Proof.
  destruct (after_deleting_exercises UTC.Date_parse UTC.toDateString
              Sample.logged eq_refl) as (Hd & Hlog).
  split; [exact Hd|].
  apply (Hlog Sample.alice_id None None None). reflexivity.
Defined.

(** Registering [alice] on a fresh store. *)
Lemma registration_answer_witness :
  exists u : UserDoc,
    In u (users (snd (post_api_users "alice" Sample.empty)))
    /\ username u = "alice"
    /\ member "username" (body (fst (post_api_users "alice" Sample.empty)))
       = Some (JStr "alice")
    /\ member "_id" (body (fst (post_api_users "alice" Sample.empty)))
       = Some (oid_json (user_id u)).
Proof.
  apply (registration_answers_with_a_stored_user "alice" Sample.empty).
  reflexivity.
Defined.
